(** * Humanizer: the /humanize request handler of app.py

    A shallow embedding of the Flask handler [humanize], of the bounded
    response cache it keeps in the module-level dict [response_cache], and of
    the four [re.sub] calls that post-process the provider's answer in
    [humanize_text_with_deepseek].

    Conventions of the model:
    - a Python [str] is the list of its code points ([text]);
    - a Python [dict] is the list of its items in insertion order;
    - an exception is represented by its [str(e)];
    - the handler is a function from the module state to a response and the
      next state; the state carries the cache and, as instrumentation, the
      number of calls made to [humanize_text_with_deepseek];
    - wall-clock values ([time.time()], the [processing_time] field) are left
      out;
    - the standard output is taken to encode to UTF-8 and to be strict, and
      what is written to it is not recorded: a [print] matters only when it
      raises. Line 157 prints the provider's exception, whose message can
      fail to be encoded, and is modelled. Lines 210 and 214 print ASCII
      text, and line 238 prints a message that is ASCII or was printed at
      line 157: they never raise and are left out. *)

From Stdlib Require Import String Ascii ZArith List Bool Lia Floats.
Import ListNotations.
Local Open Scope Z_scope.

Set Implicit Arguments.
Set Warnings "-register-all".

(* ================================================================== *)
(** * Python strings *)
(* ================================================================== *)

(** A [str] as the sequence of its Unicode code points. *)
Definition text := list Z.

(** The code points of an ASCII literal. *)
Fixpoint str (s : string) : text :=
  match s with
  | EmptyString => []
  | String a s' => Z.of_N (N_of_ascii a) :: str s'
  end.

(** [len(s)] *)
Definition len (A : Type) (s : list A) : Z := Z.of_nat (length s).

Definition is_some (A : Type) (o : option A) : bool :=
  match o with
  | Some _ => true
  | None => false
  end.

Definition text_eqb (a b : text) : bool :=
  if list_eq_dec Z.eq_dec a b then true else false.

(** [str.isspace] on one code point: the white-space table of CPython. *)
Definition isspace (c : Z) : bool :=
  ((9 <=? c) && (c <=? 13)) || ((28 <=? c) && (c <=? 32))
  || (c =? 133) || (c =? 160) || (c =? 5760)
  || ((8192 <=? c) && (c <=? 8202))
  || (c =? 8232) || (c =? 8233) || (c =? 8239) || (c =? 8287) || (c =? 12288).

Fixpoint lstrip (s : text) : text :=
  match s with
  | [] => []
  | c :: s' => if isspace c then lstrip s' else s
  end.

Definition rstrip (s : text) : text := rev (lstrip (rev s)).

(** [s.strip()] *)
Definition strip (s : text) : text := rstrip (lstrip s).

(** [s.encode()], UTF-8: [None] stands for [UnicodeEncodeError], raised on a
    lone surrogate (which a JSON escape can produce). *)
Definition utf8_encode_cp (c : Z) : option (list Z) :=
  if c <? 0 then None
  else if c <? 128 then Some [c]
  else if c <? 2048 then Some [192 + c / 64; 128 + c mod 64]
  else if (55296 <=? c) && (c <=? 57343) then None
  else if c <? 65536 then
    Some [224 + c / 4096; 128 + (c / 64) mod 64; 128 + c mod 64]
  else if c <? 1114112 then
    Some [240 + c / 262144; 128 + (c / 4096) mod 64;
          128 + (c / 64) mod 64; 128 + c mod 64]
  else None.

Fixpoint utf8_encode (s : text) : option (list Z) :=
  match s with
  | [] => Some []
  | c :: s' =>
      match utf8_encode_cp c, utf8_encode s' with
      | Some b, Some bs => Some (b ++ bs)
      | _, _ => None
      end
  end.

(* ================================================================== *)
(** * Python values, exceptions and dicts *)
(* ================================================================== *)

(** What [request.get_json()] can return: the image of a JSON document, with
    [PyNone] also standing for "no JSON body". *)
Inductive pyval :=
| PyNone
| PyBool (b : bool)
| PyInt (n : Z)
| PyFloat (f : float)
| PyStr (s : text)
| PyList (l : list pyval)
| PyDict (d : list (text * pyval)).

(** [bool(v)], as tested by [if not data]. *)
Definition truthy (v : pyval) : bool :=
  match v with
  | PyNone => false
  | PyBool b => b
  | PyInt n => negb (n =? 0)
  | PyFloat f => negb (PrimFloat.eqb f 0%float)
  | PyStr s => negb (text_eqb s [])
  | PyList l => match l with [] => false | _ => true end
  | PyDict d => match d with [] => false | _ => true end
  end.

Definition type_name (v : pyval) : text :=
  match v with
  | PyNone => str "NoneType"
  | PyBool _ => str "bool"
  | PyInt _ => str "int"
  | PyFloat _ => str "float"
  | PyStr _ => str "str"
  | PyList _ => str "list"
  | PyDict _ => str "dict"
  end.

(** An exception, as far as the handler looks at it: [str(e)]. *)
Definition exn := text.

Inductive outcome (A : Type) :=
| Return (a : A)
| Raise (e : exn).
Arguments Raise {A} e.

(** [str(AttributeError)] for a method the value's type does not have. *)
Definition attribute_error (v : pyval) (attr : string) : exn :=
  str "'" ++ type_name v ++ str "' object has no attribute '" ++ str attr
      ++ str "'".

(** Item lookup in the ordered items of a dict. *)
Fixpoint dict_get (V : Type) (k : text) (d : list (text * V)) : option V :=
  match d with
  | [] => None
  | (k', v) :: d' => if text_eqb k k' then Some v else dict_get k d'
  end.

(** [k in d] *)
Definition dict_contains (V : Type) (k : text) (d : list (text * V)) : bool :=
  is_some (dict_get k d).

(** [d[k] = v]: a present key keeps its place, a new one goes last. *)
Fixpoint dict_set (V : Type) (k : text) (v : V) (d : list (text * V))
  : list (text * V) :=
  match d with
  | [] => [(k, v)]
  | (k', v') :: d' =>
      if text_eqb k k' then (k', v) :: d' else (k', v') :: dict_set k v d'
  end.

(** [del d[k]] for a present key. *)
Definition dict_del (V : Type) (k : text) (d : list (text * V))
  : list (text * V) :=
  filter (fun e => negb (text_eqb k (fst e))) d.

(** [data.get('text', '')] *)
Definition py_get_text (data : pyval) : outcome pyval :=
  match data with
  | PyDict d =>
      Return (match dict_get (str "text") d with
              | Some v => v
              | None => PyStr []
              end)
  | _ => Raise (attribute_error data "get")
  end.

(** [v.strip()] *)
Definition py_strip (v : pyval) : outcome text :=
  match v with
  | PyStr s => Return (strip s)
  | _ => Raise (attribute_error v "strip")
  end.

(* ================================================================== *)
(** * Module state and responses *)
(* ================================================================== *)

Record state := mkState {
  response_cache : list (text * text);
  provider_calls : nat   (* calls of humanize_text_with_deepseek so far *)
}.

(** The state of a freshly started process: [response_cache = {}]. *)
Definition initial_state : state := mkState [] 0.

(** The JSON document of a response, without [processing_time]. *)
Inductive payload :=
| Success (humanized_text : text) (original_length humanized_length : Z)
          (cached : bool)
| Failure (error : text).

Record response := mkResponse {
  body : payload;
  status_code : Z
}.

Definition success (r : response) : bool :=
  match body r with
  | Success _ _ _ _ => true
  | Failure _ => false
  end.

Definition ok (humanized_text : text) (original_length : Z)
           (humanized_length : Z) (cached : bool) : response :=
  mkResponse (Success humanized_text original_length humanized_length cached)
             200.
Definition bad_request (error : string) : response :=
  mkResponse (Failure (str error)) 400.
Definition server_error (e : exn) : response := mkResponse (Failure e) 500.

(** Code that reads and writes the module state and may raise. *)
Definition M (A : Type) := state -> outcome A * state.

Definition ret (A : Type) (a : A) : M A := fun st => (Return a, st).
Definition lift (A : Type) (o : outcome A) : M A := fun st => (o, st).
Definition bind (A B : Type) (m : M A) (k : A -> M B) : M B :=
  fun st =>
    match m st with
    | (Return a, st') => k a st'
    | (Raise e, st') => (Raise e, st')
    end.

Notation "x <- m ;; k" := (bind m (fun x => k))
  (at level 61, m at next level, right associativity).
Notation "m ;; k" := (bind m (fun _ => k))
  (at level 61, right associativity).

Definition modify_cache (f : list (text * text) -> list (text * text))
  : M unit :=
  fun st => (Return tt, mkState (f (response_cache st)) (provider_calls st)).

(** [key in response_cache] *)
Definition cache_contains (key : text) : M bool :=
  fun st => (Return (dict_contains key (response_cache st)), st).

(** [response_cache[key]] *)
Definition cache_getitem (key : text) : M text :=
  fun st =>
    match dict_get key (response_cache st) with
    | Some v => (Return v, st)
    | None => (Raise (str "'" ++ key ++ str "'"), st)   (* KeyError *)
    end.

(** [len(response_cache)] *)
Definition cache_len : M Z := fun st => (Return (len (response_cache st)), st).

(** [next(iter(response_cache))] *)
Definition cache_first_key : M text :=
  fun st =>
    match response_cache st with
    | (k, _) :: _ => (Return k, st)
    | [] => (Raise [], st)                              (* StopIteration *)
    end.

(** Lines 218-223: store, then drop the oldest item once over 100. *)
Definition cache_store (cache_key humanized_text : text) : M unit :=
  modify_cache (dict_set cache_key humanized_text) ;;
  n <- cache_len ;;
  if n >? 100 then
    oldest_key <- cache_first_key ;;
    modify_cache (dict_del oldest_key)
  else ret tt.

(** What [request.get_json()] did. *)
Definition request := outcome pyval.

(** What the body of a POST is to [request.get_json()], called as line 181
    calls it, without [force] and without [silent]. *)
Inductive http_body :=
| NoJson                  (* no body, or a Content-Type that is not JSON *)
| BadJson                 (* a JSON Content-Type, a body that does not parse *)
| Json (data : pyval).    (* a JSON Content-Type and a JSON document *)

(** Flask's [Request.get_json] (2.1 and later): it raises
    [UnsupportedMediaType] on the first kind of body and [BadRequest] on the
    second, both of them subclasses of [Exception], and returns the parsed
    document on the third. [http_error] gives the [str(e)] of the two
    exceptions. *)
Definition get_json (http_error : http_body -> exn) (b : http_body)
  : request :=
  match b with
  | Json data => Return data
  | NoJson | BadJson => Raise (http_error b)
  end.

(** Test doubles for the environment of the handler. *)
Module Stub.

(** No word character outside ASCII. *)
Definition ascii_only (c : Z) : bool := false.

(** A stand-in digest: the bytes themselves. *)
Definition digest (b : list Z) : text := b.

Definition encode_error (s : text) : exn := str "surrogates not allowed".

(** A provider that echoes its input. *)
Definition echo (n : nat) (ai_text : text) : outcome text := Return ai_text.

(** A provider whose call raises an exception with message [msg]. *)
Definition failing (msg : exn) (n : nat) (ai_text : text) : outcome text :=
  Raise msg.

(** 101 items with distinct keys. *)
Definition items101 : list (text * text) :=
  map (fun n => ([Z.of_nat n], str "text")) (seq 0 101).

(** The request carrying [{"text": t}]. *)
Definition post (t : text) : request :=
  Return (PyDict [(str "text", PyStr t)]).

End Stub.

(* ================================================================== *)
(** * The provider client *)
(* ================================================================== *)

Module Chat.

(** The [OpenAI] client, as far as app.py configures it. *)
Record client := mkClient {
  api_key : text;
  base_url : text
}.

Record message := mkMessage {
  role : text;
  content : text
}.

(** The keyword arguments of [client.chat.completions.create]. *)
Record completion_request := mkRequest {
  model : text;
  messages : list message;
  temperature : float;
  max_tokens : Z
}.

(** [get_deepseek_client], lines 16-25; [getenv] is [os.getenv]. *)
Definition get_deepseek_client (getenv : text -> option text)
  : outcome client :=
  match getenv (str "DEEPSEEK_API_KEY") with
  | Some api_key =>
      if text_eqb api_key [] then Raise (str "DEEPSEEK_API_KEY not set")
      else Return (mkClient api_key (str "https://api.deepseek.com/v1"))
  | None => Raise (str "DEEPSEEK_API_KEY not set")
  end.

(** Lines 121-123. *)
Definition system_content : text :=
  str "You are a writing coach helping students sound clear, natural, "
      ++ str "and human. Rewrite text to sound like a college student "
      ++ str "wrote it.".

(** Lines 126-139: the f-string around [ai_text]. *)
Definition user_content_head : text :=
  [10] ++ str "Here is a piece of text that feels a bit stiff or AI-like:"
       ++ [10; 10; 34; 34; 34].

Definition user_content_tail : text :=
  [34; 34; 34; 10; 10]
    ++ str "Please rewrite it so that:" ++ [10]
    ++ str "- it keeps the same ideas and factual content," ++ [10]
    ++ str "- it sounds like a college student wrote it," ++ [10]
    ++ str "- sentence length and structure vary a bit," ++ [10]
    ++ str "- it avoids overly generic or robotic phrasing," ++ [10]
    ++ str "- small imperfections are allowed instead of being perfectly "
    ++ str "polished."
    ++ [10; 10]
    ++ str "Return ONLY the rewritten text, with no extra commentary."
    ++ [10].

Definition user_content (ai_text : text) : text :=
  user_content_head ++ ai_text ++ user_content_tail.

(** Lines 117-144. The [prompt] of lines 31-114 is built and never used. *)
Definition completion_request_of (ai_text : text) : completion_request :=
  mkRequest (str "deepseek-chat")
            [mkMessage (str "system") system_content;
             mkMessage (str "user") (user_content ai_text)]
            0.75%float
            4000.

(** Lines 29 and 117-146 up to the message content: the client, the remote
    call and [response.choices[0].message.content]. [create n] is what the
    remote call does in the [n]-th invocation of
    [humanize_text_with_deepseek]; a completion is given by the content of
    the message of each of its choices, [None] for a null content. *)
Definition deepseek_call
           (getenv : text -> option text)
           (create : nat -> client -> completion_request
                     -> outcome (list (option text)))
           (n : nat) (ai_text : text) : outcome text :=
  match get_deepseek_client getenv with
  | Raise e => Raise e
  | Return c =>
      match create n c (completion_request_of ai_text) with
      | Raise e => Raise e
      | Return choices =>
          match choices with
          | [] => Raise (str "list index out of range")     (* IndexError *)
          | None :: _ => Raise (attribute_error PyNone "strip")
          | Some content :: _ => Return content
          end
      end
  end.

(** Test doubles. *)
Definition no_key (name : text) : option text := None.
Definition test_key (name : text) : option text := Some (str "sk-test").
(** A provider whose first call fails and whose later calls echo. *)
Definition fails_once (n : nat) (ai_text : text) : outcome text :=
  match n with
  | O => Raise (str "Connection error.")
  | S _ => Return ai_text
  end.
Definition answers (choices : list (option text))
           (n : nat) (c : client) (r : completion_request)
  : outcome (list (option text)) :=
  Return choices.

End Chat.

(* ================================================================== *)
(** * The program *)
(* ================================================================== *)

(** The patterns of app.py are sequences of literal characters, character
    classes and [\b] assertions; none has a quantifier or an alternative, so
    matching at a position is deterministic. *)
Inductive re_item :=
| WordB               (* \b *)
| Chr (c : Z)         (* a literal character *)
| Cls (cs : list Z).  (* [...] *)

Definition regex := list re_item.

Section Humanizer.

(** [str.isalnum] outside ASCII: the Unicode database of the interpreter. *)
Variable unicode_alnum : Z -> bool.

(** [hashlib.md5(bytes).hexdigest()] *)
Variable md5_hexdigest : list Z -> text.

(** [str(e)] of the [UnicodeEncodeError] that encoding [s] to UTF-8 raises,
    in [s.encode()] and in a [print(s)]. *)
Variable encode_error : text -> exn.

(** The remote call of [humanize_text_with_deepseek] (client creation,
    [chat.completions.create], reading the message content): what its [n]-th
    invocation does on a text, a content string or an exception. An
    exception is taken through lines 156-158; the one that line 29 raises
    ahead of the [try], "DEEPSEEK_API_KEY not set", can be printed, so that
    for it those lines change nothing. *)
Variable deepseek_chat : nat -> text -> outcome text.

Definition ascii_alnum (c : Z) : bool :=
  ((48 <=? c) && (c <=? 57)) || ((65 <=? c) && (c <=? 90))
  || ((97 <=? c) && (c <=? 122)).

(** [\w] of a [str] pattern: alphanumeric or underscore. *)
Definition is_word (c : Z) : bool :=
  (c =? 95) || (if c <? 128 then ascii_alnum c else unicode_alnum c).

(** The character next to a position; [None] outside the string. *)
Definition is_wordo (o : option Z) : bool :=
  match o with
  | Some c => is_word c
  | None => false
  end.

(** [\b] holds between [prev] and [next] when exactly one is a word
    character. *)
Definition word_boundary (prev next : option Z) : bool :=
  xorb (is_wordo prev) (is_wordo next).

(** Match [p] at the start of [s], [prev] being the character before it:
    the text after the match, if there is one. *)
Fixpoint re_match (p : regex) (prev : option Z) (s : text) : option text :=
  match p with
  | [] => Some s
  | WordB :: p' =>
      if word_boundary prev (hd_error s) then re_match p' prev s else None
  | Chr c :: p' =>
      match s with
      | x :: s' => if x =? c then re_match p' (Some x) s' else None
      | [] => None
      end
  | Cls cs :: p' =>
      match s with
      | x :: s' =>
          if existsb (Z.eqb x) cs then re_match p' (Some x) s' else None
      | [] => None
      end
  end.

(** [re.search(p, s) is not None], scanning from a position whose left
    neighbour is [prev]. *)
Fixpoint re_search (p : regex) (prev : option Z) (s : text) : bool :=
  match s with
  | [] => is_some (re_match p prev [])
  | c :: s' => is_some (re_match p prev s) || re_search p (Some c) s'
  end.

(** The scan of [re.sub(p, repl, s)] for a pattern that consumes at least
    one character: at each position the leftmost match is replaced and the
    scan resumes after it; [skip] counts the characters of the current
    match still to be passed over. *)
Fixpoint re_sub_from (p : regex) (repl : text) (skip : nat)
         (prev : option Z) (s : text) : text :=
  match s with
  | [] => []
  | c :: s' =>
      match skip with
      | S k => re_sub_from p repl k (Some c) s'
      | O =>
          match re_match p prev s with
          | Some rest =>
              repl ++ re_sub_from p repl (length s' - length rest) (Some c) s'
          | None => c :: re_sub_from p repl 0 (Some c) s'
          end
      end
  end.

Definition re_sub (p : regex) (repl s : text) : text :=
  re_sub_from p repl 0 None s.

(** ** The four substitutions of [humanize_text_with_deepseek] *)

(** [r'[—–]'] *)
Definition re_dash : regex := [Cls [8212; 8211]].
(** [r'\b[Mm]eanwhile\b'] *)
Definition re_meanwhile : regex :=
  Eval cbv in WordB :: Cls (str "Mm") :: map Chr (str "eanwhile") ++ [WordB].
(** [r'\b[Ff]lashpoint\b'] *)
Definition re_flashpoint : regex :=
  Eval cbv in WordB :: Cls (str "Ff") :: map Chr (str "lashpoint") ++ [WordB].
(** [r'which makes it\b'] *)
Definition re_which : regex :=
  Eval cbv in map Chr (str "which makes it") ++ [WordB].

Definition repl_dash : text := Eval cbv in str "-".
Definition repl_meanwhile : text := Eval cbv in str "At the same time".
Definition repl_flashpoint : text := Eval cbv in str "critical point".
Definition repl_which : text := Eval cbv in str "so it's".

(** Lines 149-152. *)
Definition postprocess (humanized_text : text) : text :=
  let humanized_text := re_sub re_dash repl_dash humanized_text in
  let humanized_text := re_sub re_meanwhile repl_meanwhile humanized_text in
  let humanized_text := re_sub re_flashpoint repl_flashpoint humanized_text in
  let humanized_text := re_sub re_which repl_which humanized_text in
  humanized_text.

(** ** [humanize_text_with_deepseek] *)

(** [print(s)]: the text is encoded and written, or the encoder raises. *)
Definition print (s : text) : outcome unit :=
  match utf8_encode s with
  | Some _ => Return tt
  | None => Raise (encode_error s)
  end.

Definition humanize_text_with_deepseek (ai_text : text) : M text :=
  fun st =>
    let st' := mkState (response_cache st) (S (provider_calls st)) in
    match deepseek_chat (provider_calls st) ai_text with
    | Return content => (Return (postprocess (strip content)), st')
    | Raise e =>
        match print (str "DeepSeek API error: " ++ e) with    (* line 157 *)
        | Return _ => (Raise e, st')                            (* line 158 *)
        | Raise e' => (Raise e', st')
        end
    end.

(** ** The [/humanize] route *)

(** [hashlib.md5(ai_text.encode()).hexdigest()] *)
Definition fingerprint (ai_text : text) : outcome text :=
  match utf8_encode ai_text with
  | Some bytes => Return (md5_hexdigest bytes)
  | None => Raise (encode_error ai_text)
  end.

(** Lines 191-234: validation of the stripped text, cache, provider. *)
Definition humanize_stripped (ai_text : text) : M response :=
  if text_eqb ai_text [] then ret (bad_request "No text provided") else
  if len ai_text >? 10000 then
    ret (bad_request "Text too long. Maximum 10,000 characters allowed.")
  else
  cache_key <- lift (fingerprint ai_text) ;;
  hit <- cache_contains cache_key ;;
  humanized_text <-
    (if hit then cache_getitem cache_key
     else
       humanized_text <- humanize_text_with_deepseek ai_text ;;
       cache_store cache_key humanized_text ;;
       ret humanized_text) ;;
  cached <- cache_contains cache_key ;;
  ret (ok humanized_text (len ai_text) (len humanized_text) cached).

(** The body of the [try] block, lines 181-234. *)
Definition humanize_try (req : request) : M response :=
  data <- lift req ;;
  if negb (truthy data) then ret (bad_request "No JSON data provided") else
  raw <- lift (py_get_text data) ;;
  ai_text <- lift (py_strip raw) ;;
  humanize_stripped ai_text.

(** The [except Exception] clause, lines 236-244. *)
Definition handle (m : M response) (st : state) : response * state :=
  match m st with
  | (Return r, st') => (r, st')
  | (Raise e, st') => (server_error e, st')
  end.

(** [humanize] *)
Definition humanize (req : request) : state -> response * state :=
  handle (humanize_try req).

(** A sequence of requests served one after the other. *)
Definition serve (reqs : list request) (st : state) : state :=
  fold_left (fun st req => snd (humanize req st)) reqs st.

(** Items stored one after the other. *)
Fixpoint store_all (items : list (text * text)) : M unit :=
  match items with
  | [] => ret tt
  | (k, v) :: items' => cache_store k v ;; store_all items'
  end.

(** [/status]: the reported [cache_size]. *)
Definition status (st : state) : Z := len (response_cache st).

(** ** The forbidden items as the specification words them *)

(** "Meanwhile" as a standalone word, in any letter case. *)
Definition re_meanwhile_anycase : regex :=
  Eval cbv in
    WordB :: map (fun c => Cls [c - 32; c]) (str "meanwhile") ++ [WordB].
(** "flashpoint" as a standalone word, in any letter case. *)
Definition re_flashpoint_anycase : regex :=
  Eval cbv in
    WordB :: map (fun c => Cls [c - 32; c]) (str "flashpoint") ++ [WordB].
(** The phrase "which makes it", wherever it occurs. *)
Definition re_which_phrase : regex :=
  Eval cbv in map Chr (str "which makes it").

(** No dash, no standalone "Meanwhile" or "flashpoint" whatever the case of
    its letters, no "which makes it". *)
Definition free_of_forbidden_items (s : text) : bool :=
  negb (existsb (Z.eqb 8212) s) && negb (existsb (Z.eqb 8211) s)
  && negb (re_search re_meanwhile_anycase None s)
  && negb (re_search re_flashpoint_anycase None s)
  && negb (re_search re_which_phrase None s).

(** ** Notions used to reason about the cache *)

(** The cache after lines 218-223, as a function of the cache before. *)
Definition cache_after_store (k v : text) (d : list (text * text))
  : list (text * text) :=
  let d' := dict_set k v d in
  if len d' >? 100 then
    match d' with
    | (oldest, _) :: _ => dict_del oldest d'
    | [] => d'
    end
  else d'.

Definition keys (V : Type) (d : list (text * V)) : list text := map fst d.

Definition all_space (s : text) : Prop := Forall (fun c => isspace c = true) s.

(** The exception that leaves lines 156-158 when [e] was caught there: [e]
    itself, or the one raised by the [print] of line 157. *)
Definition reraised (e : exn) : exn :=
  match print (str "DeepSeek API error: " ++ e) with
  | Return _ => e
  | Raise e' => e'
  end.

(** The request carries [ai_text]: [get_json()] returned a truthy value
    with a [get] method whose result has a [strip] method. *)
Definition carries (req : request) (ai_text : text) : Prop :=
  exists data raw,
    req = Return data /\ truthy data = true
    /\ py_get_text data = Return raw /\ py_strip raw = Return ai_text.

(** The ten ways through [humanize], each with its response and the state
    it leaves. *)
Inductive served (req : request) (st : state) : response * state -> Prop :=
| ServedJsonError e :
    req = Raise e -> served req st (server_error e, st)
| ServedNoJson data :
    req = Return data -> truthy data = false ->
    served req st (bad_request "No JSON data provided", st)
| ServedNoGet data e :
    req = Return data -> truthy data = true -> py_get_text data = Raise e ->
    served req st (server_error e, st)
| ServedNoStrip data raw e :
    req = Return data -> truthy data = true ->
    py_get_text data = Return raw -> py_strip raw = Raise e ->
    served req st (server_error e, st)
| ServedNoText :
    carries req [] -> served req st (bad_request "No text provided", st)
| ServedTooLong ai_text :
    carries req ai_text -> len ai_text > 10000 ->
    served req st
      (bad_request "Text too long. Maximum 10,000 characters allowed.", st)
| ServedNoDigest ai_text e :
    carries req ai_text -> ai_text <> [] -> len ai_text <= 10000 ->
    fingerprint ai_text = Raise e ->
    served req st (server_error e, st)
| ServedHit ai_text cache_key h :
    carries req ai_text -> ai_text <> [] -> len ai_text <= 10000 ->
    fingerprint ai_text = Return cache_key ->
    dict_get cache_key (response_cache st) = Some h ->
    served req st (ok h (len ai_text) (len h) true, st)
| ServedProviderError ai_text cache_key e :
    carries req ai_text -> ai_text <> [] -> len ai_text <= 10000 ->
    fingerprint ai_text = Return cache_key ->
    dict_get cache_key (response_cache st) = None ->
    deepseek_chat (provider_calls st) ai_text = Raise e ->
    served req st
      (server_error (reraised e),
       mkState (response_cache st) (S (provider_calls st)))
| ServedMiss ai_text cache_key content :
    carries req ai_text -> ai_text <> [] -> len ai_text <= 10000 ->
    fingerprint ai_text = Return cache_key ->
    dict_get cache_key (response_cache st) = None ->
    deepseek_chat (provider_calls st) ai_text = Return content ->
    served req st
      (ok (postprocess (strip content)) (len ai_text)
          (len (postprocess (strip content))) true,
       mkState (cache_after_store cache_key (postprocess (strip content))
                                  (response_cache st))
               (S (provider_calls st))).

(** ** Notions used to state further properties *)

(** What line 149 does to one character. *)
Definition dash_to_hyphen (c : Z) : Z :=
  if (c =? 8212) || (c =? 8211) then 45 else c.

(** None of the four patterns of lines 149-152 matches in [s]. *)
Definition enforced (s : text) : Prop :=
  ~ In 8212 s /\ ~ In 8211 s
  /\ re_search re_meanwhile None s = false
  /\ re_search re_flashpoint None s = false
  /\ re_search re_which None s = false.

(** White space at neither end. *)
Definition trimmed (s : text) : Prop :=
  (forall c, hd_error s = Some c -> isspace c = false)
  /\ (forall c, hd_error (rev s) = Some c -> isspace c = false).

(** A code point that UTF-8 encodes: in range and not a surrogate. *)
Definition scalar_value (c : Z) : bool :=
  (0 <=? c) && (c <? 1114112) && negb ((55296 <=? c) && (c <=? 57343)).

(** ** Notions used to reason about the scan of [re.sub] *)

(** The left neighbour of the position reached after reading [m]. *)
Definition lastc (prev : option Z) (m : text) : option Z :=
  fold_left (fun _ c => Some c) m prev.

(** A pattern with a character or a class never matches the empty word. *)
Definition consumes (p : regex) : bool :=
  existsb (fun i => match i with WordB => false | _ => true end) p.

(** The three ways one step of the scan goes. *)
Inductive sub_view (p : regex) (repl : text) (prev : option Z) (s : text)
  : text -> Prop :=
| SubEnd : s = [] -> sub_view p repl prev s []
| SubCopy c s' :
    s = c :: s' -> re_match p prev s = None ->
    sub_view p repl prev s (c :: re_sub_from p repl 0 (Some c) s')
| SubRepl c m rest :
    s = (c :: m) ++ rest -> re_match p prev s = Some rest ->
    sub_view p repl prev s
             (repl ++ re_sub_from p repl 0 (lastc prev (c :: m)) rest).

(* ================================================================== *)
(** * Strings and dicts *)
(* ================================================================== *)

Lemma text_eqb_eq a b : text_eqb a b = true <-> a = b.
Proof.
  unfold text_eqb. destruct (list_eq_dec Z.eq_dec a b); split; congruence.
Qed.

Lemma text_eqb_refl a : text_eqb a a = true.
Proof. now apply text_eqb_eq. Qed.

Lemma text_eqb_neq a b : text_eqb a b = false <-> a <> b.
Proof.
  unfold text_eqb. destruct (list_eq_dec Z.eq_dec a b); split; congruence.
Qed.

Lemma text_eqb_sym a b : text_eqb a b = text_eqb b a.
Proof.
  destruct (text_eqb b a) eqn:E.
  - apply text_eqb_eq in E. subst. apply text_eqb_refl.
  - apply text_eqb_neq in E. apply text_eqb_neq. congruence.
Qed.

Lemma lstrip_space w s : all_space w -> lstrip (w ++ s) = lstrip s.
Proof.
  induction 1 as [|c w Hc _ IH]; simpl; [reflexivity|]. now rewrite Hc.
Qed.

Lemma lstrip_all_space w : all_space w -> lstrip w = [].
Proof.
  intros H. rewrite <- (app_nil_r w). now rewrite lstrip_space.
Qed.

Lemma lstrip_app s w :
  lstrip (s ++ w) = if text_eqb (lstrip s) [] then lstrip w else lstrip s ++ w.
Proof.
  induction s as [|c s IH]; simpl.
  - reflexivity.
  - destruct (isspace c); [exact IH | reflexivity].
Qed.

Lemma all_space_rev w : all_space w -> all_space (rev w).
Proof.
  unfold all_space. rewrite !Forall_forall. intros H x Hx. apply H.
  now apply in_rev.
Qed.

Lemma rstrip_space s w : all_space w -> rstrip (s ++ w) = rstrip s.
Proof.
  intros H. unfold rstrip.
  rewrite rev_app_distr, lstrip_space; auto using all_space_rev.
Qed.

Lemma rstrip_all_space w : all_space w -> rstrip w = [].
Proof.
  intros H. unfold rstrip. rewrite lstrip_all_space; auto using all_space_rev.
Qed.

(** Surrounding white space does not survive [strip]. *)
Lemma strip_surrounded w1 s w2 :
  all_space w1 -> all_space w2 -> strip (w1 ++ s ++ w2) = strip s.
Proof.
  intros H1 H2. unfold strip. rewrite lstrip_space by exact H1.
  rewrite lstrip_app. destruct (text_eqb (lstrip s) []) eqn:E.
  - apply text_eqb_eq in E. rewrite E, lstrip_all_space by exact H2.
    reflexivity.
  - now apply rstrip_space.
Qed.

Lemma strip_all_space w : all_space w -> strip w = [].
Proof.
  intros H. unfold strip. now rewrite lstrip_all_space.
Qed.

Lemma dict_get_app (V : Type) k (d1 d2 : list (text * V)) :
  dict_get k (d1 ++ d2)
  = match dict_get k d1 with Some v => Some v | None => dict_get k d2 end.
Proof.
  induction d1 as [|[k' v'] d1 IH]; simpl; [reflexivity|].
  now destruct (text_eqb k k').
Qed.

Lemma dict_set_new (V : Type) k (v : V) d :
  dict_get k d = None -> dict_set k v d = d ++ [(k, v)].
Proof.
  induction d as [|[k' v'] d IH]; simpl; [reflexivity|].
  destruct (text_eqb k k'); [discriminate|]. intros H. now rewrite IH.
Qed.

Lemma dict_get_del (V : Type) k k0 (d : list (text * V)) :
  k <> k0 -> dict_get k (dict_del k0 d) = dict_get k d.
Proof.
  intros Hk. induction d as [|[k' v'] d IH]; simpl; [reflexivity|].
  destruct (text_eqb k0 k') eqn:E0; simpl.
  - apply text_eqb_eq in E0. subst k'.
    apply text_eqb_neq in Hk. now rewrite Hk.
  - now rewrite IH.
Qed.

Lemma dict_del_length (V : Type) k0 (d : list (text * V)) :
  (length (dict_del k0 d) <= length d)%nat.
Proof. apply filter_length_le. Qed.

Lemma dict_del_fresh (V : Type) k0 (d : list (text * V)) :
  ~ In k0 (keys d) -> dict_del k0 d = d.
Proof.
  induction d as [|[k' v'] d IH]; simpl; intros H; [reflexivity|].
  destruct (text_eqb k0 k') eqn:E.
  - apply text_eqb_eq in E. subst k'. tauto.
  - simpl. rewrite IH; tauto.
Qed.

Lemma dict_get_None (V : Type) k (d : list (text * V)) :
  dict_get k d = None <-> ~ In k (keys d).
Proof.
  induction d as [|[k' v'] d IH]; simpl; [tauto|].
  destruct (text_eqb k k') eqn:E.
  - apply text_eqb_eq in E. split; [discriminate | intros H; exfalso; auto].
  - apply text_eqb_neq in E. rewrite IH. intuition congruence.
Qed.

(* ================================================================== *)
(** * The scan of [re.sub] *)
(* ================================================================== *)

Lemma lastc_app prev m1 m2 : lastc prev (m1 ++ m2) = lastc (lastc prev m1) m2.
Proof. apply fold_left_app. Qed.

Lemma re_match_split p : forall prev s rest,
    re_match p prev s = Some rest -> exists m, s = m ++ rest.
Proof.
  induction p as [|i p IH]; intros prev s rest H; simpl in H.
  - inversion H; subst. now exists [].
  - destruct i.
    + destruct (word_boundary _ _); [eauto | discriminate].
    + destruct s as [|x s']; [discriminate|].
      destruct (x =? c); [|discriminate].
      destruct (IH _ _ _ H) as [m ->]. now exists (x :: m).
    + destruct s as [|x s']; [discriminate|].
      destruct (existsb _ cs); [|discriminate].
      destruct (IH _ _ _ H) as [m ->]. now exists (x :: m).
Qed.

Lemma re_match_consumes p : consumes p = true -> forall prev s rest,
    re_match p prev s = Some rest -> exists x m, s = x :: m ++ rest.
Proof.
  induction p as [|i p IH]; intros Hc prev s rest H; simpl in *.
  - discriminate.
  - destruct i; simpl in Hc.
    + destruct (word_boundary _ _); [eauto | discriminate].
    + destruct s as [|x s']; [discriminate|].
      destruct (x =? c); [|discriminate].
      destruct (re_match_split _ _ _ H) as [m ->]. now exists x, m.
    + destruct s as [|x s']; [discriminate|].
      destruct (existsb _ cs); [|discriminate].
      destruct (re_match_split _ _ _ H) as [m ->]. now exists x, m.
Qed.

Lemma re_match_nil p prev : consumes p = true -> re_match p prev [] = None.
Proof.
  intros Hc. destruct (re_match p prev []) as [r|] eqn:H; [|reflexivity].
  destruct (re_match_consumes _ Hc _ _ H) as (x & m & E). discriminate.
Qed.

(** Passing over the rest of a match. *)
Lemma re_sub_skip p repl : forall m prev rest,
    re_sub_from p repl (length m) prev (m ++ rest)
    = re_sub_from p repl 0 (lastc prev m) rest.
Proof.
  induction m as [|c m IH]; intros prev rest; simpl.
  - now destruct rest.
  - apply IH.
Qed.

Lemma re_sub_view p repl (Hc : consumes p = true) prev s :
  sub_view p repl prev s (re_sub_from p repl 0 prev s).
Proof.
  destruct s as [|c s']; simpl.
  - now constructor.
  - destruct (re_match p prev (c :: s')) as [rest|] eqn:H.
    + destruct (re_match_consumes _ Hc _ _ H) as (x & m & E).
      injection E as -> ->.
      rewrite length_app, Nat.add_sub, re_sub_skip.
      eapply SubRepl; [reflexivity | exact H].
    + now constructor.
Qed.

(** Only characters of the input or of the replacement are written. *)
Lemma re_sub_from_In p repl x : forall s k prev,
    In x (re_sub_from p repl k prev s) -> In x s \/ In x repl.
Proof.
  induction s as [|c s IH]; intros k prev H; simpl in H.
  - contradiction.
  - destruct k as [|k].
    + destruct (re_match p prev (c :: s)).
      * apply in_app_or in H. destruct H as [H|H]; [now right|].
        apply IH in H. simpl. tauto.
      * destruct H as [->|H]; [left; now left|].
        apply IH in H. simpl. tauto.
    + apply IH in H. simpl. tauto.
Qed.

(** A search that fails on a text fails on each of its suffixes. *)
Lemma re_search_app q : forall m prev rest,
    re_search q prev (m ++ rest) = false ->
    re_search q (lastc prev m) rest = false.
Proof.
  induction m as [|c m IH]; intros prev rest H; simpl in *.
  - exact H.
  - apply orb_false_iff in H. now apply IH.
Qed.

(** What the scan for [p] leaves of the matches of [q], from three facts
    about the two patterns and the replacement. *)
Section Leaves.

Variables (p q : regex) (repl : text) (rlast : Z).
Variable clean : option Z -> text -> Prop.

Hypothesis p_consumes : consumes p = true.
Hypothesis q_consumes : consumes q = true.

(** Where [p] does not match, a clean input has no match of [q]. *)
Hypothesis clean_here : forall prev c s,
    clean prev (c :: s) -> re_match p prev (c :: s) = None ->
    re_match q prev (c :: s) = None /\ clean (Some c) s.
Hypothesis clean_skip : forall prev m rest,
    clean prev (m ++ rest) -> re_match p prev (m ++ rest) = Some rest ->
    clean (lastc prev m) rest.

(** A match of [q] at a copied character was one before the scan. *)
Hypothesis window : forall prev prev_o c s,
    is_wordo prev_o = is_wordo prev ->
    re_match q prev (c :: s) = None ->
    re_match q prev_o (c :: re_sub_from p repl 0 (Some c) s) = None.

(** No match of [q] starts inside the replacement. *)
Hypothesis inside : forall prev_o x,
    re_search q prev_o (repl ++ x) = re_search q (Some rlast) x.

(** A match of [p] and the replacement end alike. *)
Hypothesis last_word : forall prev c m rest,
    re_match p prev ((c :: m) ++ rest) = Some rest ->
    is_wordo (lastc prev (c :: m)) = is_word rlast.

Lemma scan_leaves : forall n s prev prev_o,
    (length s <= n)%nat -> is_wordo prev_o = is_wordo prev -> clean prev s ->
    re_search q prev_o (re_sub_from p repl 0 prev s) = false.
Proof.
  induction n as [|n IH]; intros s prev prev_o Hn Hw Hc.
  - destruct s; [|simpl in Hn; lia]. simpl. now rewrite re_match_nil.
  - destruct (@re_sub_view p repl p_consumes prev s)
      as [E | c s' E Hm | c m rest E Hm].
    + simpl. now rewrite re_match_nil.
    + subst s. destruct (clean_here Hc Hm) as [Hq Hc'].
      cbn [re_search]. rewrite (@window prev prev_o c s' Hw Hq). simpl.
      apply IH; [simpl in Hn; lia | reflexivity | exact Hc'].
    + subst s. rewrite inside. apply IH.
      * rewrite length_app in Hn. simpl in Hn. lia.
      * simpl. symmetry. exact (@last_word prev c m rest Hm).
      * apply clean_skip; assumption.
Qed.

End Leaves.

(** A substitution leaves no match of its own pattern. *)
Lemma sub_removes p repl rlast :
  consumes p = true ->
  (forall prev prev_o c s,
      is_wordo prev_o = is_wordo prev ->
      re_match p prev (c :: s) = None ->
      re_match p prev_o (c :: re_sub_from p repl 0 (Some c) s) = None) ->
  (forall prev_o x,
      re_search p prev_o (repl ++ x) = re_search p (Some rlast) x) ->
  (forall prev s m rest,
      re_match p prev s = Some rest -> s = m ++ rest ->
      is_wordo (lastc prev m) = is_word rlast) ->
  forall s, re_search p None (re_sub p repl s) = false.
Proof.
  intros Hc Hwin Hin Hlast s.
  apply (@scan_leaves p p repl rlast (fun _ _ => True)) with (n := length s);
    auto.
  intros prev c m rest H. now apply (Hlast prev _ (c :: m) rest H).
Qed.

(** A substitution brings in no match of another pattern. *)
Lemma sub_keeps p q repl rlast :
  consumes p = true -> consumes q = true ->
  (forall prev prev_o c s,
      is_wordo prev_o = is_wordo prev ->
      re_match q prev (c :: s) = None ->
      re_match q prev_o (c :: re_sub_from p repl 0 (Some c) s) = None) ->
  (forall prev_o x,
      re_search q prev_o (repl ++ x) = re_search q (Some rlast) x) ->
  (forall prev s m rest,
      re_match p prev s = Some rest -> s = m ++ rest ->
      is_wordo (lastc prev m) = is_word rlast) ->
  forall s,
    re_search q None s = false -> re_search q None (re_sub p repl s) = false.
Proof.
  intros Hp Hq Hwin Hin Hlast s Hs.
  apply (@scan_leaves p q repl rlast (fun prev s => re_search q prev s = false))
    with (n := length s); auto.
  - intros prev c s' H _. cbn [re_search] in H.
    apply orb_false_iff in H. destruct H as [H1 H2]. split; [|exact H2].
    now destruct (re_match q prev (c :: s')).
  - intros prev m rest H _. now apply re_search_app.
  - intros prev c m rest H. now apply (Hlast prev _ (c :: m) rest H).
Qed.

(** The scan for [p] keeps the kind (word or not) of the first character. *)
Lemma head_word p repl (Hc : consumes p = true) (Hr : repl <> []) :
  (forall prev s rest, re_match p prev s = Some rest ->
                       is_wordo (hd_error s) = is_wordo (hd_error repl)) ->
  forall prev s,
    is_wordo (hd_error (re_sub_from p repl 0 prev s)) = is_wordo (hd_error s).
Proof.
  intros Hf prev s.
  destruct (@re_sub_view p repl Hc prev s) as [E | c s' E Hm | c m rest E Hm].
  - now subst.
  - now subst.
  - rewrite (Hf _ _ _ Hm). now destruct repl.
Qed.

(** ** The patterns of app.py *)

(** Read a successful match of a fixed pattern off its hypothesis. *)
Ltac match_inv H :=
  cbn in H;
  repeat (match type of H with
          | (if ?b then _ else _) = Some _ =>
              let E := fresh "E" in
              destruct b eqn:E; [|discriminate H]
          | match ?s with [] => None | _ :: _ => _ end = Some _ =>
              destruct s as [|? ?]; [discriminate H|]
          end; cbn in H).

Ltac eqb_subst :=
  repeat match goal with
         | E : (?x =? ?c) = true |- _ => apply Z.eqb_eq in E; subst x
         end.

Ltac cls_split :=
  repeat match goal with
         | E : _ || _ = true |- _ =>
             apply orb_true_iff in E; destruct E as [E|E]
         | E : false = true |- _ => discriminate E
         end.

Ltac prefix_of l s :=
  match l with
  | s => constr:(@nil Z)
  | ?a :: ?l' => let r := prefix_of l' s in constr:(a :: r)
  end.

Ltac last_word_tac :=
  let H := fresh "H" in
  let E := fresh "E" in
  intros ? ? ? ? H E; match_inv H; eqb_subst; injection H as <-;
  match type of E with
  | ?l = ?m ++ ?s =>
      let pre := prefix_of l s in apply (app_inv_tail s pre m) in E
  end;
  subst; reflexivity.

Ltac first_word_tac :=
  let H := fresh "H" in
  intros ? ? ? H; match_inv H; cls_split; eqb_subst; reflexivity.

Ltac inside_tac :=
  intros; cbn; try (destruct (word_boundary _ _)); reflexivity.

(** One character of the window of [q] in the output of the scan for [p]:
    either it was copied, and the input has it too, or a replacement starts
    there, and the window does not fit. *)
Ltac window_step p repl pc hw Hw H Hq :=
  unfold word_boundary in H, Hq; rewrite ?Hw, ?hw in H;
  lazymatch type of H with
  | (if ?b then _ else _) = Some _ =>
      let E := fresh "E" in
      destruct b eqn:E; [rewrite ?E in Hq | discriminate H];
      try (apply Z.eqb_eq in E; subst)
  | match re_sub_from p repl 0 ?pv ?s1 with [] => _ | _ :: _ => _ end
    = Some _ =>
      let V := fresh "V" in
      let out := fresh "out" in
      pose proof (@re_sub_view p repl pc pv s1) as V;
      set (out := re_sub_from p repl 0 pv s1) in *; clearbody out;
      destruct V as [? | ? ? ? ? | ? ? ? ? ?]; [subst s1 | subst s1 | ]
  | None = Some _ => discriminate H
  | Some _ = Some _ => discriminate Hq
  end;
  cbn -[word_boundary is_wordo] in H; cbn -[word_boundary is_wordo] in Hq.

Ltac window_tac p repl pc hw :=
  let Hw := fresh "Hw" in
  let Hq := fresh "Hq" in
  let H := fresh "H" in
  intros ? ? ? ? Hw Hq;
  match goal with
  | |- ?lhs = None => destruct lhs eqn:H; [exfalso | reflexivity]
  end;
  cbn -[word_boundary is_wordo] in H; cbn -[word_boundary is_wordo] in Hq;
  repeat window_step p repl pc hw Hw H Hq.

Lemma consumes_meanwhile : consumes re_meanwhile = true.
Proof. reflexivity. Qed.
Lemma consumes_flashpoint : consumes re_flashpoint = true.
Proof. reflexivity. Qed.
Lemma consumes_which : consumes re_which = true.
Proof. reflexivity. Qed.

Lemma last_meanwhile : forall prev s m rest,
    re_match re_meanwhile prev s = Some rest -> s = m ++ rest ->
    is_wordo (lastc prev m) = is_word 101.
Proof. last_word_tac. Qed.

Lemma last_flashpoint : forall prev s m rest,
    re_match re_flashpoint prev s = Some rest -> s = m ++ rest ->
    is_wordo (lastc prev m) = is_word 116.
Proof. last_word_tac. Qed.

Lemma last_which : forall prev s m rest,
    re_match re_which prev s = Some rest -> s = m ++ rest ->
    is_wordo (lastc prev m) = is_word 115.
Proof. last_word_tac. Qed.

Lemma head_meanwhile : forall prev s,
    is_wordo (hd_error (re_sub_from re_meanwhile repl_meanwhile 0 prev s))
    = is_wordo (hd_error s).
Proof.
  apply head_word; [reflexivity | discriminate | first_word_tac].
Qed.

Lemma head_flashpoint : forall prev s,
    is_wordo (hd_error (re_sub_from re_flashpoint repl_flashpoint 0 prev s))
    = is_wordo (hd_error s).
Proof.
  apply head_word; [reflexivity | discriminate | first_word_tac].
Qed.

Lemma head_which : forall prev s,
    is_wordo (hd_error (re_sub_from re_which repl_which 0 prev s))
    = is_wordo (hd_error s).
Proof.
  apply head_word; [reflexivity | discriminate | first_word_tac].
Qed.

(** [re.sub(r'\b[Mm]eanwhile\b', ...)] leaves no match of its pattern. *)
Lemma meanwhile_removed s :
  re_search re_meanwhile None (re_sub re_meanwhile repl_meanwhile s) = false.
Proof.
  apply sub_removes with (rlast := 101).
  - reflexivity.
  - window_tac re_meanwhile repl_meanwhile consumes_meanwhile head_meanwhile.
  - inside_tac.
  - exact last_meanwhile.
Qed.

Lemma flashpoint_removed s :
  re_search re_flashpoint None (re_sub re_flashpoint repl_flashpoint s) = false.
Proof.
  apply sub_removes with (rlast := 116).
  - reflexivity.
  - window_tac re_flashpoint repl_flashpoint consumes_flashpoint
               head_flashpoint.
  - inside_tac.
  - exact last_flashpoint.
Qed.

Lemma which_removed s :
  re_search re_which None (re_sub re_which repl_which s) = false.
Proof.
  apply sub_removes with (rlast := 115).
  - reflexivity.
  - window_tac re_which repl_which consumes_which head_which.
  - inside_tac.
  - exact last_which.
Qed.

(** The later substitutions bring no "Meanwhile" or "flashpoint" back. *)
Lemma meanwhile_kept_by_flashpoint s :
  re_search re_meanwhile None s = false ->
  re_search re_meanwhile None (re_sub re_flashpoint repl_flashpoint s) = false.
Proof.
  apply sub_keeps with (rlast := 116).
  - reflexivity.
  - reflexivity.
  - window_tac re_flashpoint repl_flashpoint consumes_flashpoint
               head_flashpoint.
  - inside_tac.
  - exact last_flashpoint.
Qed.

Lemma meanwhile_kept_by_which s :
  re_search re_meanwhile None s = false ->
  re_search re_meanwhile None (re_sub re_which repl_which s) = false.
Proof.
  apply sub_keeps with (rlast := 115).
  - reflexivity.
  - reflexivity.
  - window_tac re_which repl_which consumes_which head_which.
  - inside_tac.
  - exact last_which.
Qed.

Lemma flashpoint_kept_by_which s :
  re_search re_flashpoint None s = false ->
  re_search re_flashpoint None (re_sub re_which repl_which s) = false.
Proof.
  apply sub_keeps with (rlast := 115).
  - reflexivity.
  - reflexivity.
  - window_tac re_which repl_which consumes_which head_which.
  - inside_tac.
  - exact last_which.
Qed.

(** [re.sub(r'[—–]', '-', s)] writes no dash. *)
Lemma dash_removed x : existsb (Z.eqb x) [8212; 8211] = true ->
  forall s prev, ~ In x (re_sub_from re_dash repl_dash 0 prev s).
Proof.
  intros Hx. induction s as [|c s IH]; intros prev H; simpl in H.
  - exact H.
  - destruct ((c =? 8212) || ((c =? 8211) || false)) eqn:E.
    + rewrite Nat.sub_diag in H. destruct H as [H|H].
      * subst x. discriminate Hx.
      * exact (IH _ H).
    + destruct H as [H|H].
      * subst x. simpl in Hx. congruence.
      * exact (IH _ H).
Qed.

Lemma dash_kept x p repl s :
  ~ In x repl -> ~ In x s -> ~ In x (re_sub p repl s).
Proof.
  intros Hr Hs H. apply re_sub_from_In in H. tauto.
Qed.

Lemma postprocess_no_dash x s :
  existsb (Z.eqb x) [8212; 8211] = true -> ~ In x (postprocess s).
Proof.
  intros Hx. unfold postprocess.
  assert (Hnot : forall r, existsb (Z.eqb x) r = false -> ~ In x r).
  { intros r Hr Hin. assert (existsb (Z.eqb x) r = true); [|congruence].
    apply existsb_exists. exists x. split; [exact Hin | apply Z.eqb_refl]. }
  simpl in Hx. apply orb_true_iff in Hx.
  destruct Hx as [Hx|Hx]; [|apply orb_true_iff in Hx; destruct Hx as [Hx|Hx];
                             [|discriminate]];
    apply Z.eqb_eq in Hx; subst x;
    do 3 (apply dash_kept; [apply Hnot; reflexivity|]);
    now apply dash_removed.
Qed.

(** C2 (as amended). The post-processor is a total function, and for every
    input string its output contains no em-dash or en-dash, no standalone
    "Meanwhile"/"meanwhile" and no standalone "Flashpoint"/"flashpoint" (the
    two spellings the patterns of lines 150-151 name), and no "which makes
    it" that ends at a word boundary (the pattern of line 152). *)
Theorem postprocess_enforces_patterns (s : text) :
  ~ In 8212 (postprocess s) /\ ~ In 8211 (postprocess s)
  /\ re_search re_meanwhile None (postprocess s) = false
  /\ re_search re_flashpoint None (postprocess s) = false
  /\ re_search re_which None (postprocess s) = false.
Proof.
  repeat split.
  - now apply postprocess_no_dash.
  - now apply postprocess_no_dash.
  - apply meanwhile_kept_by_which, meanwhile_kept_by_flashpoint,
      meanwhile_removed.
  - apply flashpoint_kept_by_which, flashpoint_removed.
  - apply which_removed.
Qed.

(* ================================================================== *)
(** * The cache and the handler *)
(* ================================================================== *)

Lemma len_gtb (A : Type) (l : list A) (n : nat) :
  (len l >? Z.of_nat n) = true <-> (n < length l)%nat.
Proof. unfold len. rewrite Z.gtb_ltb, Z.ltb_lt. lia. Qed.

Lemma dict_set_length (V : Type) k (v : V) d :
  (length (dict_set k v d) <= S (length d))%nat.
Proof.
  induction d as [|[k' v'] d IH]; simpl; [lia|].
  destruct (text_eqb k k'); simpl; lia.
Qed.

Lemma dict_del_head (V : Type) k0 (v0 : V) d :
  dict_del k0 ((k0, v0) :: d) = dict_del k0 d.
Proof. unfold dict_del. simpl. now rewrite text_eqb_refl. Qed.

(** Lines 218-223 as a function of the cache; they never raise. *)
Lemma cache_store_eq k v st :
  cache_store k v st
  = (Return tt,
     mkState (cache_after_store k v (response_cache st)) (provider_calls st)).
Proof.
  unfold cache_store, cache_after_store, bind, modify_cache, cache_len,
    cache_first_key, ret. simpl.
  destruct (len (dict_set k v (response_cache st)) >? 100) eqn:E;
    [|reflexivity].
  destruct (dict_set k v (response_cache st)) as [|[k0 v0] d'];
    [discriminate E | reflexivity].
Qed.

(** The cap of 100 items holds after a store. *)
Lemma cache_after_store_length k v d :
  (length d <= 100)%nat -> (length (cache_after_store k v d) <= 100)%nat.
Proof.
  intros Hd. unfold cache_after_store.
  pose proof (dict_set_length k v d) as Hs.
  destruct (len (dict_set k v d) >? 100) eqn:E.
  - destruct (dict_set k v d) as [|[k0 v0] d']; [simpl; lia|].
    rewrite dict_del_head. pose proof (dict_del_length k0 d'). simpl in Hs.
    lia.
  - change 100 with (Z.of_nat 100) in E.
    destruct (Nat.lt_ge_cases 100 (length (dict_set k v d))) as [H|H];
      [|exact H].
    apply len_gtb in H. congruence.
Qed.

(** The item just stored is in the cache after the eviction. *)
Lemma cache_after_store_get k v d :
  dict_get k d = None -> dict_get k (cache_after_store k v d) = Some v.
Proof.
  intros Hk. unfold cache_after_store. rewrite dict_set_new by exact Hk.
  assert (Hlast : dict_get k (d ++ [(k, v)]) = Some v).
  { rewrite dict_get_app, Hk. simpl. now rewrite text_eqb_refl. }
  destruct (len (d ++ [(k, v)]) >? 100) eqn:E; [|exact Hlast].
  destruct d as [|[k0 v0] d]; [discriminate E|].
  change (dict_get k (dict_del k0 (((k0, v0) :: d) ++ [(k, v)])) = Some v).
  rewrite dict_get_del; [exact Hlast|].
  simpl in Hk. destruct (text_eqb k k0) eqn:E0; [discriminate|].
  now apply text_eqb_neq.
Qed.

(** A request carrying a JSON object with a string under "text". *)
Lemma humanize_dict d t st :
  dict_get (str "text") d = Some (PyStr t) ->
  humanize (Return (PyDict d)) st = handle (humanize_stripped (strip t)) st.
Proof.
  intros H. unfold humanize, handle, humanize_try, bind, lift.
  destruct d as [|e d]; [discriminate H|].
  cbn [truthy negb py_get_text]. rewrite H. reflexivity.
Qed.

(** The paths through lines 205-234 for a text that passes validation. *)
Section Paths.

Variables (ai_text cache_key : text) (st : state).
Hypothesis not_empty : ai_text <> [].
Hypothesis not_long : len ai_text <= 10000.
Hypothesis key_of : fingerprint ai_text = Return cache_key.

Lemma passes_validation :
  text_eqb ai_text [] = false /\ (len ai_text >? 10000) = false.
Proof.
  split; [now apply text_eqb_neq|].
  rewrite Z.gtb_ltb. apply Z.ltb_ge. exact not_long.
Qed.

Ltac enter_path :=
  unfold humanize_stripped;
  destruct passes_validation as [-> ->];
  unfold bind, lift, ret, cache_contains, cache_getitem, dict_contains,
    humanize_text_with_deepseek;
  rewrite key_of.

Lemma path_hit h :
  dict_get cache_key (response_cache st) = Some h ->
  humanize_stripped ai_text st
  = (Return (ok h (len ai_text) (len h) true), st).
Proof.
  intros Hh. enter_path. repeat (rewrite Hh; cbn). reflexivity.
Qed.

Lemma path_miss_raise e :
  dict_get cache_key (response_cache st) = None ->
  deepseek_chat (provider_calls st) ai_text = Raise e ->
  humanize_stripped ai_text st
  = (Raise (reraised e),
     mkState (response_cache st) (S (provider_calls st))).
Proof.
  intros Hh He. enter_path. rewrite Hh. cbn -[print]. rewrite He.
  unfold reraised. now destruct (print _).
Qed.

Lemma path_miss_ok content :
  dict_get cache_key (response_cache st) = None ->
  deepseek_chat (provider_calls st) ai_text = Return content ->
  let h := postprocess (strip content) in
  humanize_stripped ai_text st
  = (Return (ok h (len ai_text) (len h) true),
     mkState (cache_after_store cache_key h (response_cache st))
             (S (provider_calls st))).
Proof.
  intros Hh He h. enter_path. rewrite Hh. cbn -[cache_store postprocess].
  rewrite He. cbn -[cache_store postprocess]. rewrite cache_store_eq.
  cbn -[cache_after_store postprocess]. fold h.
  rewrite cache_after_store_get by exact Hh. reflexivity.
Qed.

End Paths.

Lemma humanize_carries req ai_text st :
  carries req ai_text ->
  humanize req st = handle (humanize_stripped ai_text) st.
Proof.
  intros (data & raw & -> & Ht & Hg & Hs).
  unfold humanize, handle, humanize_try, bind, lift.
  rewrite Ht, Hg, Hs. reflexivity.
Qed.

Lemma carries_dict d t :
  dict_get (str "text") d = Some (PyStr t) ->
  carries (Return (PyDict d)) (strip t).
Proof.
  intros H. exists (PyDict d), (PyStr t). repeat split.
  - destruct d; [discriminate H | reflexivity].
  - unfold py_get_text. now rewrite H.
Qed.

(** [humanize] takes one of the ten ways. *)
Lemma humanize_served req st : served req st (humanize req st).
Proof.
  destruct req as [data|e]; [|now apply ServedJsonError].
  destruct (truthy data) eqn:Ht.
  2:{ replace (humanize (Return data) st)
        with (bad_request "No JSON data provided", st)
        by (unfold humanize, handle, humanize_try, bind, lift;
            now rewrite Ht).
      now apply ServedNoJson with data. }
  destruct (py_get_text data) as [raw|e] eqn:Hg.
  2:{ replace (humanize (Return data) st) with (server_error e, st)
        by (unfold humanize, handle, humanize_try, bind, lift;
            now rewrite Ht, Hg).
      now apply ServedNoGet with data. }
  destruct (py_strip raw) as [ai_text|e] eqn:Hs.
  2:{ replace (humanize (Return data) st) with (server_error e, st)
        by (unfold humanize, handle, humanize_try, bind, lift;
            now rewrite Ht, Hg, Hs).
      now apply ServedNoStrip with data raw. }
  assert (Hc : carries (Return data) ai_text) by (exists data, raw; auto).
  rewrite (humanize_carries st Hc). unfold handle.
  destruct (text_eqb ai_text []) eqn:E1.
  { apply text_eqb_eq in E1. subst ai_text.
    change (served (Return data) st (bad_request "No text provided", st)).
    now apply ServedNoText. }
  apply text_eqb_neq in E1.
  destruct (len ai_text >? 10000) eqn:E2.
  { unfold humanize_stripped. apply text_eqb_neq in E1. rewrite E1, E2.
    apply ServedTooLong with ai_text; [exact Hc|].
    rewrite Z.gtb_ltb in E2. apply Z.ltb_lt in E2. lia. }
  assert (Hlen : len ai_text <= 10000)
    by (rewrite Z.gtb_ltb in E2; now apply Z.ltb_ge in E2).
  destruct (fingerprint ai_text) as [cache_key|e] eqn:Hk.
  2:{ unfold humanize_stripped. apply text_eqb_neq in E1. rewrite E1, E2.
      unfold bind, lift. rewrite Hk. apply text_eqb_neq in E1.
      now apply ServedNoDigest with ai_text. }
  destruct (dict_get cache_key (response_cache st)) as [h|] eqn:Hd.
  { rewrite (path_hit st E1 Hlen Hk Hd). eapply ServedHit; eauto. }
  destruct (deepseek_chat (provider_calls st) ai_text) as [content|e] eqn:Hp.
  - rewrite (path_miss_ok st E1 Hlen Hk Hd Hp).
    eapply ServedMiss; eauto.
  - rewrite (path_miss_raise st E1 Hlen Hk Hd Hp).
    eapply ServedProviderError; eauto.
Qed.

(** ** The bound on the cache *)

(** A request leaves the cache as it was or stores one new item. *)
Lemma humanize_cache req st :
  response_cache (snd (humanize req st)) = response_cache st
  \/ exists k v,
      response_cache (snd (humanize req st))
      = cache_after_store k v (response_cache st).
Proof.
  destruct (humanize_served req st); simpl; eauto.
Qed.

Lemma serve_bounded reqs : forall st,
    (length (response_cache st) <= 100)%nat ->
    (length (response_cache (serve reqs st)) <= 100)%nat.
Proof.
  induction reqs as [|req reqs IH]; intros st Hst; simpl; [exact Hst|].
  apply IH. destruct (humanize_cache req st) as [-> | (k & v & ->)];
    [exact Hst | now apply cache_after_store_length].
Qed.

Lemma store_all_eq items : forall st,
    store_all items st
    = (Return tt,
       mkState (fold_left (fun d kv => cache_after_store (fst kv) (snd kv) d)
                          items (response_cache st))
               (provider_calls st)).
Proof.
  induction items as [|[k v] items IH]; intros st; simpl.
  - now destruct st.
  - unfold bind. rewrite cache_store_eq, IH. reflexivity.
Qed.

(** Distinct keys stored into an empty cache: the last 100 remain, in the
    order they came. *)
Lemma store_distinct_fifo items :
  NoDup (keys items) ->
  fold_left (fun d kv => cache_after_store (fst kv) (snd kv) d) items []
  = skipn (length items - 100) items.
Proof.
  induction items as [|[k v] l IH] using rev_ind; intros Hnd; [reflexivity|].
  unfold keys in Hnd. rewrite map_app in Hnd. simpl in Hnd.
  rewrite fold_left_app. simpl.
  rewrite IH by (eapply NoDup_app_remove_r; exact Hnd).
  remember (length l - 100)%nat as n eqn:Hn.
  assert (Hsplit : NoDup (keys (skipn n l) ++ [k])).
  { rewrite <- (firstn_skipn n (map fst l)), <- app_assoc in Hnd.
    apply NoDup_app_remove_l in Hnd. unfold keys. now rewrite <- skipn_map. }
  assert (Hk : dict_get k (skipn n l) = None).
  { apply dict_get_None. intros Hin.
    apply NoDup_remove_2 in Hsplit. apply Hsplit. rewrite app_nil_r.
    exact Hin. }
  assert (Hlen : length (skipn n l) = (length l - n)%nat)
    by apply length_skipn.
  unfold cache_after_store. rewrite dict_set_new by exact Hk.
  rewrite length_app. simpl length.
  destruct (len (skipn n l ++ [(k, v)]) >? 100) eqn:E.
  - change 100 with (Z.of_nat 100) in E. apply len_gtb in E.
    rewrite length_app in E. simpl in E.
    destruct (skipn n l) as [|[k0 v0] d0] eqn:Ed; [simpl in E; lia|].
    change (dict_del k0 ((k0, v0) :: d0 ++ [(k, v)])
            = skipn (length l + 1 - 100) (l ++ [(k, v)])).
    rewrite dict_del_head, dict_del_fresh.
    + replace (length l + 1 - 100)%nat with (1 + n)%nat
        by (simpl in Hlen, E; lia).
      rewrite skipn_app.
      replace (1 + n - length l)%nat with 0%nat by (simpl in Hlen, E; lia).
      rewrite <- skipn_skipn, Ed. reflexivity.
    + simpl in Hsplit. apply NoDup_cons_iff in Hsplit.
      unfold keys. rewrite map_app. exact (proj1 Hsplit).
  - assert (Hle : (length (skipn n l ++ [(k, v)]) <= 100)%nat).
    { destruct (Nat.lt_ge_cases 100 (length (skipn n l ++ [(k, v)])))
        as [H|H]; [|exact H].
      apply len_gtb in H. change (Z.of_nat 100) with 100 in H. congruence. }
    rewrite length_app in Hle. simpl in Hle.
    replace (length l + 1 - 100)%nat with 0%nat by lia.
    replace n with 0%nat by lia. reflexivity.
Qed.

(** C1. The response cache never holds more than 100 entries: whatever
    requests a process has served since it started with an empty cache, the
    cache (and the [cache_size] that /status reports) is at most 100; and
    storing 101 items with distinct fingerprints into the empty cache leaves
    exactly 100 of them, all but the first, which is no longer present. *)
Theorem cache_bounded_fifo (reqs : list request) (items : list (text * text)) :
  length items = 101%nat -> NoDup (keys items) ->
  status (serve reqs initial_state) <= 100
  /\ store_all items initial_state
     = (Return tt, mkState (tl items) (provider_calls initial_state))
  /\ len (tl items) = 100
  /\ dict_contains (hd [] (keys items)) (tl items) = false.
Proof.
  intros Hlen Hnd. split; [|split; [|split]].
  - unfold status, len.
    pose proof (@serve_bounded reqs initial_state) as H. simpl in H. lia.
  - rewrite store_all_eq. simpl response_cache.
    rewrite store_distinct_fifo by exact Hnd. rewrite Hlen.
    now destruct items.
  - destruct items; [discriminate Hlen|]. unfold len. simpl in *. lia.
  - destruct items as [|[k v] items]; [discriminate Hlen|]. simpl.
    unfold dict_contains. simpl in Hnd. apply NoDup_cons_iff in Hnd.
    apply proj1, dict_get_None in Hnd. now rewrite Hnd.
Qed.

(** ** Responses *)

Ltac served_inv H :=
  match type of H with
  | humanize ?req ?st = _ =>
      let V := fresh "V" in
      pose proof (humanize_served req st) as V; rewrite H in V;
      inversion V; subst; clear V
  end.

(** C7. Every successful /humanize response reports cached=true, on a cache
    hit and on a cache miss alike. *)
Theorem success_reports_cached req st h ol hl c sc st' :
  humanize req st = (mkResponse (Success h ol hl c) sc, st') -> c = true.
Proof.
  intros H. served_inv H; reflexivity.
Qed.

(** C3. When a request has been answered with success, the same request
    submitted again is answered with the same response, hence the same
    rewritten text, and leaves the state as it is: the provider is not
    called again. *)
Theorem second_call_served_from_cache req st r1 st1 :
  humanize req st = (r1, st1) -> success r1 = true ->
  humanize req st1 = (r1, st1)
  /\ provider_calls (snd (humanize req st1)) = provider_calls st1.
Proof.
  intros H Hs.
  assert (H2 : humanize req st1 = (r1, st1)).
  { served_inv H; try discriminate Hs.
    - exact H.
    - match goal with Hc : carries _ _ |- _ =>
        rewrite (humanize_carries _ Hc) end.
      unfold handle. erewrite path_hit; eauto.
      simpl. now apply cache_after_store_get. }
  rewrite H2. auto.
Qed.


(** C5 (as amended). A request whose text field, once stripped of leading
    and trailing white space, is longer than 10,000 characters is answered
    with status 400, success=false and the error "Text too long. Maximum
    10,000 characters allowed."; the provider is not called and the cache
    is left as it was. *)
Theorem long_text_is_rejected d t st :
  dict_get (str "text") d = Some (PyStr t) ->
  len (strip t) > 10000 ->
  humanize (Return (PyDict d)) st
  = (mkResponse
       (Failure (str "Text too long. Maximum 10,000 characters allowed."))
       400, st).
Proof.
  intros Hd Hlen. rewrite (humanize_dict _ _ Hd).
  unfold handle, humanize_stripped.
  assert (E1 : text_eqb (strip t) [] = false).
  { apply text_eqb_neq. intros E. rewrite E in Hlen. discriminate Hlen. }
  assert (E2 : (len (strip t) >? 10000) = true)
    by (rewrite Z.gtb_ltb; apply Z.ltb_lt; lia).
  rewrite E1, E2. reflexivity.
Qed.

(** X26. A request whose text field is empty or consists of white space
    only is answered with status 400 and the error "No text provided"; the
    state is left as it is: the cache is unchanged and the provider is not
    called. *)
Theorem blank_text_is_rejected d t st :
  dict_get (str "text") d = Some (PyStr t) -> all_space t ->
  humanize (Return (PyDict d)) st
  = (mkResponse (Failure (str "No text provided")) 400, st).
Proof.
  intros Hd Ht.
  rewrite (humanize_dict _ _ Hd), (strip_all_space Ht). reflexivity.
Qed.

(** C8. A cache hit does not modify the cache: when the fingerprint of the
    request is in the cache, the handler leaves the state, hence the items
    of the cache, their order and their number, exactly as they were. *)
Theorem hit_leaves_cache_untouched d t cache_key st :
  dict_get (str "text") d = Some (PyStr t) ->
  strip t <> [] -> len (strip t) <= 10000 ->
  fingerprint (strip t) = Return cache_key ->
  dict_contains cache_key (response_cache st) = true ->
  snd (humanize (Return (PyDict d)) st) = st
  /\ response_cache (snd (humanize (Return (PyDict d)) st))
     = response_cache st
  /\ success (fst (humanize (Return (PyDict d)) st)) = true.
Proof.
  intros Hd Hne Hlen Hk Hhit. unfold dict_contains in Hhit.
  destruct (dict_get cache_key (response_cache st)) as [h|] eqn:Hg;
    [|discriminate Hhit].
  rewrite (humanize_dict _ _ Hd). unfold handle.
  rewrite (path_hit st Hne Hlen Hk Hg). auto.
Qed.

(** C9. Two requests whose text fields differ only in leading and trailing
    white space (the same text [t] between runs of white space) are answered
    alike from the same state: the stripped texts are equal, and so are the
    cache keys, the responses and the states left; on success
    [original_length] is the length of the stripped text, not of the text
    submitted. *)
Theorem surrounding_space_is_invisible d1 d2 t u1 u2 w1 w2 st :
  dict_get (str "text") d1 = Some (PyStr (u1 ++ t ++ u2)) ->
  dict_get (str "text") d2 = Some (PyStr (w1 ++ t ++ w2)) ->
  all_space u1 -> all_space u2 -> all_space w1 -> all_space w2 ->
  fingerprint (strip (u1 ++ t ++ u2)) = fingerprint (strip (w1 ++ t ++ w2))
  /\ humanize (Return (PyDict d1)) st = humanize (Return (PyDict d2)) st
  /\ forall h ol hl c sc st',
      humanize (Return (PyDict d1)) st
      = (mkResponse (Success h ol hl c) sc, st') ->
      ol = len (strip t).
Proof.
  intros H1 H2 Hu1 Hu2 Hw1 Hw2.
  pose proof (strip_surrounded t Hu1 Hu2) as Hs1.
  pose proof (strip_surrounded t Hw1 Hw2) as Hs2.
  split; [now rewrite Hs1, Hs2|]. split.
  - rewrite (humanize_dict _ _ H1), (humanize_dict _ _ H2).
    now rewrite Hs1, Hs2.
  - intros h ol hl c sc st' H.
    pose proof (carries_dict _ H1) as Hc1. rewrite Hs1 in Hc1.
    assert (Hsame : forall ai, carries (Return (PyDict d1)) ai ->
                               ai = strip t).
    { intros ai (data & raw & Ea & _ & Eb & Ec).
      injection Ea as <-. unfold py_get_text in Eb. rewrite H1 in Eb.
      injection Eb as <-. simpl in Ec. injection Ec as <-. exact Hs1. }
    served_inv H;
      match goal with
      | Hc : carries _ _ |- _ => now rewrite (Hsame _ Hc)
      end.
Qed.

(** C10. A JSON body that parses to a falsy value (the empty object, the
    empty array, 0, false, null, and also the empty string and 0.0) is
    answered with status 400 and the error "No JSON data provided"; the
    state is left as it was. *)
Theorem falsy_body_is_rejected data st :
  truthy data = false ->
  humanize (Return data) st
  = (mkResponse (Failure (str "No JSON data provided")) 400, st).
Proof.
  intros H. unfold humanize, handle, humanize_try, bind, lift.
  rewrite H. reflexivity.
Qed.

(* ================================================================== *)
(** * Further properties of the text functions *)
(* ================================================================== *)

Lemma lstrip_split s :
  exists w, s = w ++ lstrip s /\ all_space w
            /\ forall c, hd_error (lstrip s) = Some c -> isspace c = false.
Proof using Type.
  induction s as [|c s (w & E & Hw & Hh)]; simpl.
  - exists []. repeat split; [constructor | discriminate].
  - destruct (isspace c) eqn:Ec.
    + exists (c :: w). repeat split; [simpl; congruence | | exact Hh].
      now constructor.
    + exists []. repeat split; [constructor|].
      simpl. intros c' H. injection H as <-. exact Ec.
Qed.

Lemma rstrip_split s :
  exists w, s = rstrip s ++ w /\ all_space w
            /\ forall c, hd_error (rev (rstrip s)) = Some c ->
                         isspace c = false.
Proof using Type.
  destruct (lstrip_split (rev s)) as (w & E & Hw & Hh).
  exists (rev w). unfold rstrip. rewrite rev_involutive. repeat split.
  - rewrite <- rev_app_distr, <- E. symmetry. apply rev_involutive.
  - now apply all_space_rev.
  - exact Hh.
Qed.

(** X1. [strip] removes white space only, and only at the two ends: the
    text is the stripped text between two runs of white space, and the
    stripped text neither starts nor ends with white space. *)
Theorem strip_takes_only_outer_space (s : text) :
  exists w1 w2,
    s = w1 ++ strip s ++ w2 /\ all_space w1 /\ all_space w2
    /\ trimmed (strip s).
Proof using Type.
  destruct (lstrip_split s) as (w1 & E1 & Hw1 & Hh1).
  destruct (rstrip_split (lstrip s)) as (w2 & E2 & Hw2 & Hh2).
  exists w1, w2. unfold strip, trimmed. repeat split; try assumption.
  - now rewrite <- E2.
  - intros c Hc. apply Hh1. rewrite E2.
    destruct (rstrip (lstrip s)); [discriminate Hc | exact Hc].
Qed.

Lemma strip_fixes_stripped s : strip (strip s) = strip s.
Proof using Type.
  destruct (lstrip_split s) as (w1 & E1 & Hw1 & _).
  destruct (rstrip_split (lstrip s)) as (w2 & E2 & Hw2 & _).
  fold (strip s) in E2. rewrite E2 in E1.
  rewrite E1 at 2. symmetry. now apply strip_surrounded.
Qed.

Lemma strip_nil_all_space s : strip s = [] -> all_space s.
Proof using Type.
  intros H.
  destruct (lstrip_split s) as (w1 & E1 & Hw1 & _).
  destruct (rstrip_split (lstrip s)) as (w2 & E2 & Hw2 & _).
  fold (strip s) in E2. rewrite H in E2. simpl in E2.
  rewrite E1, E2. apply Forall_app. now split.
Qed.

(** X2. [strip] is idempotent, never lengthens a text, and gives the empty
    string exactly for the texts made of white space only. *)
Theorem strip_idempotent_and_empty (s : text) :
  strip (strip s) = strip s
  /\ len (strip s) <= len s
  /\ (strip s = [] <-> all_space s).
Proof using Type.
  split; [apply strip_fixes_stripped|]. split.
  - destruct (lstrip_split s) as (w1 & E1 & _).
    destruct (rstrip_split (lstrip s)) as (w2 & E2 & _).
    fold (strip s) in E2. rewrite E2 in E1. unfold len.
    rewrite E1 at 2. rewrite !length_app. lia.
  - split; [apply strip_nil_all_space | apply strip_all_space].
Qed.

(** Where a pattern matches nowhere, its substitution changes nothing. *)
Lemma re_sub_from_clean p repl : forall s prev,
    re_search p prev s = false -> re_sub_from p repl 0 prev s = s.
Proof using Type.
  induction s as [|c s IH]; intros prev H; simpl in *; [reflexivity|].
  apply orb_false_iff in H. destruct H as [H1 H2].
  destruct (re_match p prev (c :: s)); [discriminate H1|].
  now rewrite IH.
Qed.

Lemma re_sub_dash_map : forall s prev,
    re_sub_from re_dash repl_dash 0 prev s = map dash_to_hyphen s.
Proof using Type.
  induction s as [|c s IH]; intros prev; simpl; [reflexivity|].
  unfold dash_to_hyphen at 1.
  rewrite orb_false_r.
  destruct ((c =? 8212) || (c =? 8211)).
  - rewrite Nat.sub_diag. simpl. now rewrite IH.
  - now rewrite IH.
Qed.

(** X3. The substitution of line 149 rewrites each em-dash and each en-dash
    into one hyphen and leaves every other character where it is; the
    length of the text does not change. *)
Theorem dash_substitution_is_a_map (s : text) :
  re_sub re_dash repl_dash s = map dash_to_hyphen s
  /\ len (re_sub re_dash repl_dash s) = len s.
Proof using Type.
  unfold re_sub. rewrite re_sub_dash_map. split; [reflexivity|].
  unfold len. now rewrite length_map.
Qed.

Lemma map_dash_free s :
  ~ In 8212 s -> ~ In 8211 s -> map dash_to_hyphen s = s.
Proof.
  induction s as [|c s IH]; intros H1 H2; simpl in *; [reflexivity|].
  rewrite IH by tauto. unfold dash_to_hyphen.
  destruct (Z.eqb_spec c 8212); [tauto|].
  destruct (Z.eqb_spec c 8211); [tauto|]. reflexivity.
Qed.

Lemma postprocess_enforced s : enforced (postprocess s).
Proof.
  unfold enforced. repeat split.
  - now apply postprocess_no_dash.
  - now apply postprocess_no_dash.
  - apply meanwhile_kept_by_which, meanwhile_kept_by_flashpoint,
      meanwhile_removed.
  - apply flashpoint_kept_by_which, flashpoint_removed.
  - apply which_removed.
Qed.

Lemma postprocess_fixes_enforced s : enforced s -> postprocess s = s.
Proof.
  intros (H1 & H2 & H3 & H4 & H5). unfold postprocess, re_sub.
  rewrite re_sub_dash_map, map_dash_free by assumption.
  rewrite (@re_sub_from_clean re_meanwhile repl_meanwhile s None H3).
  rewrite (@re_sub_from_clean re_flashpoint repl_flashpoint s None H4).
  now apply re_sub_from_clean.
Qed.

(** X4. A text in which none of the four patterns matches goes through the
    post-processor unchanged. *)
Theorem postprocess_leaves_clean_text (s : text) :
  ~ In 8212 s -> ~ In 8211 s ->
  re_search re_meanwhile None s = false ->
  re_search re_flashpoint None s = false ->
  re_search re_which None s = false ->
  postprocess s = s.
Proof.
  intros H1 H2 H3 H4 H5. apply postprocess_fixes_enforced.
  unfold enforced. auto.
Qed.

(** X5. The post-processor is idempotent: applied to its own output it
    changes nothing. *)
Theorem postprocess_idempotent (s : text) :
  postprocess (postprocess s) = postprocess s.
Proof.
  apply postprocess_fixes_enforced, postprocess_enforced.
Qed.

(* ================================================================== *)
(** * Further properties of the cache *)
(* ================================================================== *)

Lemma keys_dict_del (V : Type) k0 (d : list (text * V)) :
  keys (dict_del k0 d) = filter (fun k => negb (text_eqb k0 k)) (keys d).
Proof using Type.
  induction d as [|[k v] d IH]; simpl; [reflexivity|].
  destruct (text_eqb k0 k); simpl; now rewrite IH.
Qed.

Lemma dict_get_del_same (V : Type) k (d : list (text * V)) :
  dict_get k (dict_del k d) = None.
Proof.
  apply dict_get_None. rewrite keys_dict_del. intros H.
  apply filter_In in H. destruct H as [_ H].
  now rewrite text_eqb_refl in H.
Qed.

Lemma dict_get_In (V : Type) k (v : V) d :
  dict_get k d = Some v -> In (k, v) d.
Proof using Type.
  induction d as [|[k' v'] d IH]; simpl; [discriminate|].
  destruct (text_eqb k k') eqn:E.
  - apply text_eqb_eq in E. subst k'. intros H. injection H as ->. now left.
  - intros H. right. now apply IH.
Qed.

(** The cache after a store of a new key, when its keys are distinct: the
    item goes last, and a full cache loses its first item. *)
Lemma cache_after_store_shape k v d :
  NoDup (keys d) -> dict_get k d = None -> (length d <= 100)%nat ->
  cache_after_store k v d
  = (if (length d <? 100)%nat then d else tl d) ++ [(k, v)].
Proof.
  intros Hnd Hk Hlen. unfold cache_after_store.
  rewrite dict_set_new by exact Hk.
  destruct (len (d ++ [(k, v)]) >? 100) eqn:E.
  - change 100 with (Z.of_nat 100) in E. apply len_gtb in E.
    rewrite length_app in E. simpl in E.
    assert (Hfull : (length d <? 100)%nat = false)
      by (apply Nat.ltb_ge; lia).
    rewrite Hfull. destruct d as [|[k0 v0] d0]; [simpl in E; lia|].
    change (dict_del k0 ((k0, v0) :: d0 ++ [(k, v)]) = d0 ++ [(k, v)]).
    rewrite dict_del_head. apply dict_del_fresh.
    unfold keys. rewrite map_app. simpl. intros Hin.
    apply in_app_or in Hin. simpl in Hnd. apply NoDup_cons_iff in Hnd.
    destruct Hin as [Hin | [Hin | []]]; [now apply (proj1 Hnd)|].
    apply dict_get_None in Hk. apply Hk. simpl. now left.
  - assert (Hroom : (length d <? 100)%nat = true).
    { apply Nat.ltb_lt.
      destruct (Nat.lt_ge_cases (length d) 100) as [H|H]; [exact H|].
      assert (H' : (100 < length (d ++ [(k, v)]))%nat)
        by (rewrite length_app; simpl; lia).
      apply len_gtb in H'. change (Z.of_nat 100) with 100 in H'.
      congruence. }
    now rewrite Hroom.
Qed.

Lemma cache_after_store_keys k v d :
  NoDup (keys d) -> dict_get k d = None -> (length d <= 100)%nat ->
  NoDup (keys (cache_after_store k v d)).
Proof.
  intros Hnd Hk Hlen. rewrite cache_after_store_shape by assumption.
  assert (Hall : NoDup (keys (d ++ [(k, v)]))).
  { unfold keys. rewrite map_app. simpl.
    apply NoDup_app; [exact Hnd | repeat constructor; auto |].
    intros a Ha [<- | []]. now apply dict_get_None in Hk. }
  destruct (length d <? 100)%nat; [exact Hall|].
  destruct d as [|e d0]; [exact Hall|].
  simpl in Hall. now apply NoDup_cons_iff in Hall.
Qed.

(** What a request does to the cache: nothing, or one store of a new key
    with a post-processed text. *)
Lemma humanize_cache_step req st :
  response_cache (snd (humanize req st)) = response_cache st
  \/ exists k content,
      dict_get k (response_cache st) = None
      /\ response_cache (snd (humanize req st))
         = cache_after_store k (postprocess (strip content))
                             (response_cache st).
Proof using Type.
  destruct (humanize_served req st); simpl; eauto.
Qed.

(** The cache of a process started empty: distinct keys, at most 100 items,
    post-processed texts. *)
Lemma serve_invariant reqs : forall st,
    NoDup (keys (response_cache st)) ->
    (length (response_cache st) <= 100)%nat ->
    Forall (fun e => enforced (snd e)) (response_cache st) ->
    NoDup (keys (response_cache (serve reqs st)))
    /\ (length (response_cache (serve reqs st)) <= 100)%nat
    /\ Forall (fun e => enforced (snd e)) (response_cache (serve reqs st)).
Proof using Type.
  induction reqs as [|req reqs IH]; intros st Hnd Hlen Hall; [simpl; auto|].
  change (serve (req :: reqs) st) with (serve reqs (snd (humanize req st))).
  destruct (humanize_cache_step req st) as [E | (k & content & Hk & E)];
    apply IH; rewrite E; try assumption.
  - now apply cache_after_store_keys.
  - now apply cache_after_store_length.
  - rewrite cache_after_store_shape by assumption.
    apply Forall_app. split.
    + destruct (length (response_cache st) <? 100)%nat; [exact Hall|].
      destruct (response_cache st); [exact Hall|].
      now apply Forall_inv_tail in Hall.
    + apply Forall_cons; [apply postprocess_enforced | apply Forall_nil].
Qed.

Lemma reachable_invariant reqs :
  let cache := response_cache (serve reqs initial_state) in
  NoDup (keys cache) /\ (length cache <= 100)%nat
  /\ Forall (fun e => enforced (snd e)) cache.
Proof using Type.
  apply serve_invariant; simpl; [constructor | lia | constructor].
Qed.

(** X6. A store of a new key into a cache with distinct keys and at most 100
    items never raises and appends the item; when the cache holds 100 items
    it also removes the first one, and only that one. *)
Theorem store_appends_and_evicts_oldest k v st :
  NoDup (keys (response_cache st)) ->
  dict_get k (response_cache st) = None ->
  (length (response_cache st) <= 100)%nat ->
  cache_store k v st
  = (Return tt,
     mkState ((if (length (response_cache st) <? 100)%nat
               then response_cache st else tl (response_cache st))
              ++ [(k, v)])
             (provider_calls st)).
Proof.
  intros Hnd Hk Hlen. rewrite cache_store_eq.
  now rewrite cache_after_store_shape.
Qed.

(** X7. In a process started with an empty cache the keys of the cache are
    always distinct, whatever requests were served. *)
Theorem cache_keys_stay_distinct (reqs : list request) :
  NoDup (keys (response_cache (serve reqs initial_state))).
Proof using Type. apply (reachable_invariant reqs). Qed.

(** X8. In a process started with an empty cache every successful response,
    served from the cache or from the provider, carries a text in which none
    of the four patterns of lines 149-152 matches. *)
Theorem served_text_is_always_postprocessed reqs req h ol hl c sc st' :
  humanize req (serve reqs initial_state)
  = (mkResponse (Success h ol hl c) sc, st') ->
  enforced h.
Proof using Type.
  intros H.
  destruct (reachable_invariant reqs) as (_ & _ & Hall).
  served_inv H.
  - match goal with
    | Hg : dict_get _ _ = Some _ |- _ => apply dict_get_In in Hg;
        rewrite Forall_forall in Hall; exact (Hall _ Hg)
    end.
  - apply postprocess_enforced.
Qed.

(** X9. A request never changes the text cached under a key: after it the
    key has the same text, or is gone, and it can only be gone if it was the
    oldest key of the cache. *)
Theorem cached_text_is_never_overwritten req st k v :
  dict_get k (response_cache st) = Some v ->
  let cache' := response_cache (snd (humanize req st)) in
  dict_get k cache' = Some v
  \/ (dict_get k cache' = None
      /\ hd_error (keys (response_cache st)) = Some k).
Proof using Type.
  intros Hk cache'. subst cache'.
  destruct (humanize_cache_step req st) as [-> | (k' & content & Hk' & ->)];
    [now left|].
  unfold cache_after_store. rewrite dict_set_new by exact Hk'.
  assert (Happ : forall x, dict_get k (response_cache st ++ [x]) = Some v)
    by (intros x; now rewrite dict_get_app, Hk).
  destruct (len _ >? 100); [|now left].
  destruct (response_cache st) as [|[k0 v0] d0] eqn:Ed; [discriminate Hk|].
  change (((k0, v0) :: d0) ++ [(k', postprocess (strip content))])
    with ((k0, v0) :: d0 ++ [(k', postprocess (strip content))]) in Happ.
  cbn [app]. destruct (text_eqb k k0) eqn:E.
  - apply text_eqb_eq in E. subst k0. right. split; [|reflexivity].
    apply dict_get_del_same.
  - left. apply text_eqb_neq in E. rewrite dict_get_del by exact E.
    apply Happ.
Qed.

(** X10. In a process started with an empty cache a request never makes the
    cache smaller and adds at most one item. *)
Theorem cache_size_grows_by_at_most_one reqs req :
  let st := serve reqs initial_state in
  status st <= status (snd (humanize req st)) <= status st + 1.
Proof using Type.
  intros st. destruct (reachable_invariant reqs) as (Hnd & Hlen & _).
  fold st in Hnd, Hlen. unfold status, len.
  destruct (humanize_cache_step req st) as [-> | (k & content & Hk & ->)];
    [lia|].
  rewrite cache_after_store_shape by assumption. rewrite length_app. simpl.
  destruct (length (response_cache st) <? 100)%nat eqn:E; [lia|].
  apply Nat.ltb_ge in E.
  destruct (response_cache st); simpl in *; lia.
Qed.

(* ================================================================== *)
(** * Further properties of the handler *)
(* ================================================================== *)

(** X11. Every response is of one of three kinds: status 200 with
    success=true; status 400 with success=false, the state untouched (no
    provider call, same cache); status 500 with success=false and the cache
    as it was. *)
Theorem responses_come_in_three_kinds req st :
  let r := fst (humanize req st) in
  let st' := snd (humanize req st) in
  (status_code r = 200 /\ success r = true)
  \/ (status_code r = 400 /\ success r = false /\ st' = st)
  \/ (status_code r = 500 /\ success r = false
      /\ response_cache st' = response_cache st).
Proof using Type.
  destruct (humanize_served req st); simpl; auto 10.
Qed.

(** X12. A request calls the provider at most once, and a request that does
    not call it leaves the state exactly as it was. *)
Theorem provider_called_at_most_once req st :
  let st' := snd (humanize req st) in
  st' = st \/ provider_calls st' = S (provider_calls st).
Proof using Type.
  destruct (humanize_served req st); simpl; auto.
Qed.

(** X13. A successful response has status 200; its [humanized_length] is the
    length of its text, its [original_length] is the length of the stripped
    text of the request, between 1 and 10,000; and its text is what the
    cache holds, after the request, under the fingerprint of that text. *)
Theorem success_payload_is_consistent req st h ol hl c sc st' :
  humanize req st = (mkResponse (Success h ol hl c) sc, st') ->
  sc = 200 /\ hl = len h /\ 1 <= ol <= 10000
  /\ exists ai_text cache_key,
      carries req ai_text /\ ol = len ai_text
      /\ fingerprint ai_text = Return cache_key
      /\ dict_get cache_key (response_cache st') = Some h.
Proof using Type.
  intros H.
  assert (Hpos : forall ai : text, ai <> [] -> 1 <= len ai).
  { intros [|x ai] Hne; [contradiction|]. unfold len. simpl length. lia. }
  served_inv H.
  - repeat split; auto. eauto 10.
  - repeat split; auto.
    do 2 eexists. repeat split; eauto.
    simpl. now apply cache_after_store_get.
Qed.

(** X14. A JSON body that is truthy but not an object (a non-empty array
    or string, a non-zero number, true) is answered with status 500 and the
    message of the [AttributeError] raised by [data.get]; the state is left
    as it was. *)
Theorem body_without_get_is_a_server_error data st :
  truthy data = true -> (forall d, data <> PyDict d) ->
  humanize (Return data) st
  = (mkResponse (Failure (attribute_error data "get")) 500, st).
Proof using Type.
  intros Ht Hd. unfold humanize, handle, humanize_try, bind, lift.
  rewrite Ht. destruct data; try reflexivity.
  now contradiction (Hd d).
Qed.

(** X15. A text field that is not a string (a number, null, a list, ...)
    is answered with status 500 and the message of the [AttributeError]
    raised by [.strip()], not with "No text provided"; the state is left as
    it was. *)
Theorem text_without_strip_is_a_server_error d v st :
  dict_get (str "text") d = Some v -> (forall s, v <> PyStr s) ->
  humanize (Return (PyDict d)) st
  = (mkResponse (Failure (attribute_error v "strip")) 500, st).
Proof using Type.
  intros Hd Hv. unfold humanize, handle, humanize_try, bind, lift.
  destruct d as [|e d]; [discriminate Hd|].
  cbn [truthy negb py_get_text]. rewrite Hd.
  destruct v; try reflexivity. now contradiction (Hv s).
Qed.

(** X16. A non-empty JSON object without a "text" key is answered like an
    empty text: status 400 and "No text provided", the state left as it
    was. *)
Theorem missing_text_key_is_no_text d st :
  d <> [] -> dict_get (str "text") d = None ->
  humanize (Return (PyDict d)) st
  = (mkResponse (Failure (str "No text provided")) 400, st).
Proof using Type.
  intros Hne Hd. unfold humanize, handle, humanize_try, bind, lift.
  destruct d as [|e d]; [contradiction|].
  cbn [truthy negb py_get_text]. rewrite Hd. reflexivity.
Qed.

Lemma utf8_encode_cp_scalar c :
  scalar_value c = true ->
  exists b, utf8_encode_cp c = Some b
            /\ (1 <= length b <= 4)%nat
            /\ Forall (fun x => 0 <= x < 256) b.
Proof.
  unfold scalar_value, utf8_encode_cp. intros H.
  apply andb_true_iff in H. destruct H as [H Hs].
  apply andb_true_iff in H. destruct H as [H0 H1].
  apply Z.leb_le in H0. apply Z.ltb_lt in H1.
  destruct (Z.ltb_spec c 0); [lia|].
  destruct (Z.ltb_spec c 128).
  { eexists. split; [reflexivity|]. split; [simpl; lia|].
    repeat constructor; lia. }
  destruct (Z.ltb_spec c 2048).
  { eexists. split; [reflexivity|]. split; [simpl; lia|].
    repeat constructor; Z.to_euclidean_division_equations; lia. }
  destruct ((55296 <=? c) && (c <=? 57343)); [discriminate Hs|].
  destruct (Z.ltb_spec c 65536).
  { eexists. split; [reflexivity|]. split; [simpl; lia|].
    repeat constructor; Z.to_euclidean_division_equations; lia. }
  destruct (Z.ltb_spec c 1114112); [|lia].
  eexists. split; [reflexivity|]. split; [simpl; lia|].
  repeat constructor; Z.to_euclidean_division_equations; lia.
Qed.

Lemma utf8_encode_cp_not_scalar c :
  scalar_value c = false -> utf8_encode_cp c = None.
Proof using Type.
  unfold scalar_value, utf8_encode_cp. intros H.
  destruct (Z.ltb_spec c 0); [reflexivity|].
  destruct (Z.ltb_spec c 128).
  { exfalso. revert H.
    destruct (Z.leb_spec 0 c), (Z.ltb_spec c 1114112),
      (Z.leb_spec 55296 c), (Z.leb_spec c 57343); simpl;
      (discriminate || lia). }
  destruct (Z.ltb_spec c 2048).
  { exfalso. revert H.
    destruct (Z.leb_spec 0 c), (Z.ltb_spec c 1114112),
      (Z.leb_spec 55296 c), (Z.leb_spec c 57343); simpl;
      (discriminate || lia). }
  destruct ((55296 <=? c) && (c <=? 57343)) eqn:Es; [reflexivity|].
  destruct (Z.ltb_spec c 65536).
  { exfalso. revert H.
    destruct (Z.leb_spec 0 c), (Z.ltb_spec c 1114112);
      simpl; (discriminate || lia). }
  destruct (Z.ltb_spec c 1114112); [|reflexivity].
  exfalso. revert H. destruct (Z.leb_spec 0 c); simpl; (discriminate || lia).
Qed.

Lemma utf8_encode_not_scalar s c :
  In c s -> scalar_value c = false -> utf8_encode s = None.
Proof using Type.
  intros Hin Hc. induction s as [|x s IH]; [contradiction|].
  simpl. destruct Hin as [-> | Hin].
  - now rewrite utf8_encode_cp_not_scalar.
  - rewrite IH by exact Hin. now destruct (utf8_encode_cp x).
Qed.

(** X17. A text made of Unicode scalar values (code points in range, no
    surrogate) always has a fingerprint: its UTF-8 encoding exists, is made
    of bytes, and has between one and four bytes for each character. *)
Theorem scalar_text_has_a_fingerprint (s : text) :
  Forall (fun c => scalar_value c = true) s ->
  exists bytes,
    utf8_encode s = Some bytes
    /\ fingerprint s = Return (md5_hexdigest bytes)
    /\ Forall (fun b => 0 <= b < 256) bytes
    /\ len s <= len bytes <= 4 * len s.
Proof.
  intros H.
  assert (Henc : exists bytes,
             utf8_encode s = Some bytes
             /\ Forall (fun b => 0 <= b < 256) bytes
             /\ (length s <= length bytes <= 4 * length s)%nat).
  { induction H as [|c s Hc _ (bytes & E & Hb & Hl)].
    - exists []. repeat split; [constructor | simpl; lia | simpl; lia].
    - destruct (utf8_encode_cp_scalar c Hc) as (b & Eb & Hlb & Hbb).
      exists (b ++ bytes). simpl. rewrite Eb, E.
      repeat split; [now apply Forall_app | |];
        rewrite length_app; simpl; lia. }
  destruct Henc as (bytes & E & Hb & Hl).
  exists bytes. unfold fingerprint, len. rewrite E.
  repeat split; try assumption; lia.
Qed.

(** X18. A text that still holds a lone surrogate after stripping cannot be
    encoded: the request is answered with status 500 and the message of the
    [UnicodeEncodeError], without a provider call and with the cache as it
    was. *)
Theorem surrogate_text_is_a_server_error d t c st :
  dict_get (str "text") d = Some (PyStr t) ->
  In c (strip t) -> scalar_value c = false -> len (strip t) <= 10000 ->
  humanize (Return (PyDict d)) st
  = (mkResponse (Failure (encode_error (strip t))) 500, st).
Proof using Type.
  intros Hd Hin Hc Hlen. rewrite (humanize_dict _ _ Hd).
  unfold handle, humanize_stripped.
  assert (E1 : text_eqb (strip t) [] = false).
  { apply text_eqb_neq. intros E. rewrite E in Hin. contradiction. }
  assert (E2 : (len (strip t) >? 10000) = false)
    by (rewrite Z.gtb_ltb; now apply Z.ltb_ge).
  rewrite E1, E2. unfold bind, lift, fingerprint.
  now rewrite (@utf8_encode_not_scalar (strip t) c Hin Hc).
Qed.

(** X19. A provider failure is not remembered: the same request submitted
    again calls the provider again, and if that call succeeds the request
    is answered with success and its text is stored. *)
Theorem failure_is_not_cached d t cache_key e content st :
  dict_get (str "text") d = Some (PyStr t) ->
  strip t <> [] -> len (strip t) <= 10000 ->
  fingerprint (strip t) = Return cache_key ->
  dict_get cache_key (response_cache st) = None ->
  deepseek_chat (provider_calls st) (strip t) = Raise e ->
  deepseek_chat (S (provider_calls st)) (strip t) = Return content ->
  let st1 := snd (humanize (Return (PyDict d)) st) in
  let h := postprocess (strip content) in
  humanize (Return (PyDict d)) st1
  = (mkResponse (Success h (len (strip t)) (len h) true) 200,
     mkState (cache_after_store cache_key h (response_cache st))
             (S (S (provider_calls st)))).
Proof using Type.
  intros Hd Hne Hlen Hk Hmiss He Hc st1 h. subst st1.
  rewrite !(humanize_dict _ _ Hd). unfold handle.
  rewrite (path_miss_raise st Hne Hlen Hk Hmiss He). simpl snd.
  rewrite (@path_miss_ok (strip t) cache_key
             (mkState (response_cache st) (S (provider_calls st)))
             Hne Hlen Hk content Hmiss Hc).
  reflexivity.
Qed.

(** X25. Eviction goes by insertion order, not by use: in a full cache
    with distinct keys, a request served from the oldest item does not save
    that item; the next request that stores a new text evicts it. *)
Theorem hit_does_not_protect_the_oldest
        dA tA kA dB tB kB content st :
  dict_get (str "text") dA = Some (PyStr tA) ->
  strip tA <> [] -> len (strip tA) <= 10000 ->
  fingerprint (strip tA) = Return kA ->
  dict_get (str "text") dB = Some (PyStr tB) ->
  strip tB <> [] -> len (strip tB) <= 10000 ->
  fingerprint (strip tB) = Return kB ->
  NoDup (keys (response_cache st)) ->
  length (response_cache st) = 100%nat ->
  hd_error (keys (response_cache st)) = Some kA ->
  dict_get kB (response_cache st) = None ->
  deepseek_chat (provider_calls st) (strip tB) = Return content ->
  let st1 := snd (humanize (Return (PyDict dA)) st) in
  let st2 := snd (humanize (Return (PyDict dB)) st1) in
  success (fst (humanize (Return (PyDict dA)) st)) = true
  /\ response_cache st2
     = tl (response_cache st) ++ [(kB, postprocess (strip content))]
  /\ dict_contains kA (response_cache st2) = false.
Proof.
  intros HdA HneA HlenA HkA HdB HneB HlenB HkB Hnd Hfull Hold Hmiss Hc
         st1 st2.
  destruct (response_cache st) as [|[k0 v0] rest] eqn:Ecache;
    [discriminate Hold|].
  simpl in Hold. injection Hold as ->.
  assert (Hhit : dict_get kA (response_cache st) = Some v0)
    by (rewrite Ecache; simpl; now rewrite text_eqb_refl).
  assert (E1 : humanize (Return (PyDict dA)) st
               = (ok v0 (len (strip tA)) (len v0) true, st)).
  { rewrite (humanize_dict _ _ HdA). unfold handle.
    now rewrite (path_hit st HneA HlenA HkA Hhit). }
  subst st2 st1. rewrite E1. simpl fst. simpl snd.
  rewrite <- Ecache in Hmiss.
  rewrite (humanize_dict _ _ HdB). unfold handle.
  rewrite (path_miss_ok st HneB HlenB HkB Hmiss Hc). simpl snd.
  cbn [response_cache].
  rewrite cache_after_store_shape;
    [| rewrite Ecache; exact Hnd | exact Hmiss | rewrite Ecache, Hfull; lia].
  rewrite Ecache, Hfull. change (100 <? 100)%nat with false. simpl tl.
  split; [reflexivity|]. split; [reflexivity|].
  unfold dict_contains. rewrite dict_get_app.
  simpl in Hnd. apply NoDup_cons_iff in Hnd. destruct Hnd as [Hfresh _].
  apply dict_get_None in Hfresh. rewrite Hfresh. simpl.
  rewrite Ecache in Hmiss. simpl in Hmiss.
  rewrite text_eqb_sym. now destruct (text_eqb kB kA).
Qed.

End Humanizer.




(* ================================================================== *)
(** * The handler at work *)
(* ================================================================== *)

(** The handler with the test doubles of [Stub], the provider apart. *)
Local Notation "'humanize_with'" :=
  (humanize Stub.ascii_only Stub.digest Stub.encode_error).

Lemma cache_bounded_fifo_witness :
  length Stub.items101 = 101%nat /\ NoDup (keys Stub.items101)
  /\ status (serve Stub.ascii_only Stub.digest Stub.encode_error Stub.echo
                   [Stub.post (str "one"); Stub.post (str "two")]
                   initial_state) <= 100
  /\ store_all Stub.items101 initial_state
     = (Return tt,
        mkState (tl Stub.items101) (provider_calls initial_state))
  /\ len (tl Stub.items101) = 100
  /\ dict_contains (hd [] (keys Stub.items101)) (tl Stub.items101) = false.
Proof.
  assert (Hnd : NoDup (keys Stub.items101)).
  { assert (E : nodup (list_eq_dec Z.eq_dec) (keys Stub.items101)
                = keys Stub.items101) by (vm_compute; reflexivity).
    rewrite <- E. apply NoDup_nodup. }
  split; [reflexivity|]. split; [exact Hnd|].
  apply (@cache_bounded_fifo Stub.ascii_only Stub.digest Stub.encode_error
                             Stub.echo);
    [reflexivity | exact Hnd].
Defined.

(** The end-to-end example of the specification, with a provider that
    echoes its input. *)
Example echo_end_to_end :
  let sent := str "Meanwhile, the results" ++ [8212] ++ str "astonishing"
              ++ [8212] ++ str "demonstrate success." in
  let got :=
    str "At the same time, the results-astonishing-demonstrate success." in
  fst (humanize_with Stub.echo (Stub.post sent) initial_state)
  = mkResponse (Success got (len sent) (len got) true) 200.
Proof. vm_compute. reflexivity. Qed.

(** C2, as stated, fails: an upper-case "MEANWHILE" goes through the
    post-processor unchanged, and so does "which makes it" when more letters
    follow. *)
Lemma postprocess_keeps_other_spellings :
  postprocess Stub.ascii_only (str "MEANWHILE") = str "MEANWHILE"
  /\ free_of_forbidden_items
       Stub.ascii_only (postprocess Stub.ascii_only (str "MEANWHILE")) = false
  /\ postprocess Stub.ascii_only (str "which makes items")
     = str "which makes items"
  /\ free_of_forbidden_items
       Stub.ascii_only (postprocess Stub.ascii_only (str "which makes items"))
     = false.
Proof. repeat split; vm_compute; reflexivity. Qed.

Lemma second_call_served_from_cache_witness :
  let req := Stub.post (str "Meanwhile, it works") in
  let r1 := fst (humanize_with Stub.echo req initial_state) in
  let st1 := snd (humanize_with Stub.echo req initial_state) in
  success r1 = true
  /\ humanize_with Stub.echo req st1 = (r1, st1)
  /\ provider_calls (snd (humanize_with Stub.echo req st1))
     = provider_calls st1.
Proof.
  intros req r1 st1. split; [reflexivity|].
  apply (@second_call_served_from_cache
           Stub.ascii_only Stub.digest Stub.encode_error Stub.echo
           req initial_state r1 st1);
    [apply surjective_pairing | reflexivity].
Defined.



(** The provider's exception is not always the one reported: when its
    message holds a lone surrogate the [print] of line 157 raises, and the
    error field is the message of that [UnicodeEncodeError]. *)
Example unprintable_provider_failure :
  let e := str "bad " ++ [55296] in
  fst (humanize_with (Stub.failing e) (Stub.post (str "hello")) initial_state)
  = mkResponse
      (Failure (Stub.encode_error (str "DeepSeek API error: " ++ e))) 500.
Proof. vm_compute. reflexivity. Qed.

(** C5, as stated, fails: a text field of 10,001 characters, one letter and
    10,000 spaces, is not rejected; it is stripped to one character, sent to
    the provider and answered with success. *)
Lemma padded_long_text_is_accepted :
  let t := str "a" ++ repeat 32 (Z.to_nat 10000) in
  len t > 10000
  /\ humanize_with Stub.echo (Stub.post t) initial_state
     = (mkResponse (Success (str "a") 1 1 true) 200,
        mkState [(str "a", str "a")] 1).
Proof. split; vm_compute; reflexivity. Qed.

Lemma long_text_is_rejected_witness :
  let t := repeat 97 (Z.to_nat 10001) in
  len (strip t) > 10000
  /\ humanize_with Stub.echo (Stub.post t) initial_state
     = (mkResponse
          (Failure (str "Text too long. Maximum 10,000 characters allowed."))
          400, initial_state).
Proof.
  intros t.
  assert (Hlen : len (strip t) > 10000) by (vm_compute; reflexivity).
  split; [exact Hlen|].
  apply (@long_text_is_rejected
           Stub.ascii_only Stub.digest Stub.encode_error Stub.echo
           [(str "text", PyStr t)] t initial_state);
    [reflexivity | exact Hlen].
Defined.

Lemma blank_text_is_rejected_witness :
  let t := [32; 9; 10; 160] in
  all_space t
  /\ humanize_with Stub.echo (Stub.post t) initial_state
     = (mkResponse (Failure (str "No text provided")) 400, initial_state).
Proof.
  intros t.
  assert (Ht : all_space t) by (repeat constructor).
  split; [exact Ht|].
  apply (@blank_text_is_rejected
           Stub.ascii_only Stub.digest Stub.encode_error Stub.echo
           [(str "text", PyStr t)] t initial_state);
    [reflexivity | exact Ht].
Defined.

Lemma success_reports_cached_witness :
  humanize_with Stub.echo (Stub.post (str "hello")) initial_state
  = (mkResponse (Success (str "hello") 5 5 true) 200,
     mkState [(str "hello", str "hello")] 1)
  /\ true = true.
Proof.
  assert (H : humanize_with Stub.echo (Stub.post (str "hello")) initial_state
              = (mkResponse (Success (str "hello") 5 5 true) 200,
                 mkState [(str "hello", str "hello")] 1))
    by (vm_compute; reflexivity).
  split; [exact H|].
  exact (@success_reports_cached
           Stub.ascii_only Stub.digest Stub.encode_error Stub.echo
           (Stub.post (str "hello")) initial_state _ _ _ _ _ _ H).
Defined.

Lemma hit_leaves_cache_untouched_witness :
  let st := mkState [(str "first", str "1"); (str "hello", str "hi there")] 2 in
  let req := Stub.post (str " hello ") in
  dict_contains (str "hello") (response_cache st) = true
  /\ snd (humanize_with Stub.echo req st) = st
  /\ response_cache (snd (humanize_with Stub.echo req st)) = response_cache st
  /\ success (fst (humanize_with Stub.echo req st)) = true.
Proof.
  intros st req. split; [reflexivity|].
  apply (@hit_leaves_cache_untouched
           Stub.ascii_only Stub.digest Stub.encode_error Stub.echo
           [(str "text", PyStr (str " hello "))] (str " hello ")
           (str "hello") st).
  - reflexivity.
  - vm_compute. discriminate.
  - vm_compute. discriminate.
  - reflexivity.
  - reflexivity.
Defined.

Lemma surrounding_space_is_invisible_witness :
  let d1 := [(str "text", PyStr ([32] ++ str "hello" ++ []))] in
  let d2 := [(str "text", PyStr ([32; 10] ++ str "hello" ++ [9; 32]))] in
  all_space [32] /\ all_space [] /\ all_space [32; 10] /\ all_space [9; 32]
  /\ fingerprint Stub.digest Stub.encode_error
                 (strip ([32] ++ str "hello" ++ []))
     = fingerprint Stub.digest Stub.encode_error
                   (strip ([32; 10] ++ str "hello" ++ [9; 32]))
  /\ humanize_with Stub.echo (Return (PyDict d1)) initial_state
     = humanize_with Stub.echo (Return (PyDict d2)) initial_state
  /\ forall h ol hl c sc st',
      humanize_with Stub.echo (Return (PyDict d1)) initial_state
      = (mkResponse (Success h ol hl c) sc, st') ->
      ol = len (strip (str "hello")).
Proof.
  intros d1 d2.
  assert (H1 : all_space [32]) by (repeat constructor).
  assert (H2 : all_space []) by constructor.
  assert (H3 : all_space [32; 10]) by (repeat constructor).
  assert (H4 : all_space [9; 32]) by (repeat constructor).
  split; [exact H1|]. split; [exact H2|].
  split; [exact H3|]. split; [exact H4|].
  apply (@surrounding_space_is_invisible
           Stub.ascii_only Stub.digest Stub.encode_error Stub.echo
           d1 d2 (str "hello") [32] [] [32; 10] [9; 32] initial_state);
    [reflexivity | reflexivity | exact H1 | exact H2 | exact H3 | exact H4].
Defined.

Lemma falsy_body_is_rejected_witness :
  Forall (fun data =>
            truthy data = false
            /\ humanize_with Stub.echo (Return data) initial_state
               = (mkResponse (Failure (str "No JSON data provided")) 400,
                  initial_state))
         [PyDict []; PyList []; PyInt 0; PyBool false; PyNone].
Proof.
  assert (H : forall data,
             truthy data = false ->
             truthy data = false
             /\ humanize_with Stub.echo (Return data) initial_state
                = (mkResponse (Failure (str "No JSON data provided")) 400,
                   initial_state)).
  { intros data Hd. split; [exact Hd|].
    exact (@falsy_body_is_rejected
             Stub.ascii_only Stub.digest Stub.encode_error Stub.echo
             data initial_state Hd). }
  repeat (apply Forall_cons; [apply H; reflexivity|]). apply Forall_nil.
Defined.

(* ================================================================== *)
(** * The handler with the provider client *)
(* ================================================================== *)

Section WithClient.

Variable unicode_alnum : Z -> bool.
Variable md5_hexdigest : list Z -> text.
Variable encode_error : text -> exn.

(** The environment of the process and the remote service. *)
Variable getenv : text -> option text.
Variable create : nat -> Chat.client -> Chat.completion_request
                  -> outcome (list (option text)).

Local Notation "'humanize_via'" :=
  (humanize unicode_alnum md5_hexdigest encode_error).

(** X20. A cache hit does not depend on the provider: whatever the provider
    would do (fail, answer, lack its API key), a request whose fingerprint
    is in the cache gets the same response and leaves the same state. *)
Theorem hit_does_not_depend_on_provider
        (chat1 chat2 : nat -> text -> outcome text) d t cache_key st :
  dict_get (str "text") d = Some (PyStr t) ->
  strip t <> [] -> len (strip t) <= 10000 ->
  fingerprint md5_hexdigest encode_error (strip t) = Return cache_key ->
  dict_contains cache_key (response_cache st) = true ->
  humanize_via chat1 (Return (PyDict d)) st
  = humanize_via chat2 (Return (PyDict d)) st.
Proof.
  intros Hd Hne Hlen Hk Hhit. unfold dict_contains in Hhit.
  destruct (dict_get cache_key (response_cache st)) as [h|] eqn:Hg;
    [|discriminate Hhit].
  rewrite !(humanize_dict _ _ _ _ _ _ Hd). unfold handle.
  rewrite (path_hit unicode_alnum md5_hexdigest encode_error chat1
                    st Hne Hlen Hk Hg).
  rewrite (path_hit unicode_alnum md5_hexdigest encode_error chat2
                    st Hne Hlen Hk Hg).
  reflexivity.
Qed.

(** What the handler answers when the provider raises on a miss. *)
Lemma miss_with_failing_call d t cache_key e st :
  dict_get (str "text") d = Some (PyStr t) ->
  strip t <> [] -> len (strip t) <= 10000 ->
  fingerprint md5_hexdigest encode_error (strip t) = Return cache_key ->
  dict_get cache_key (response_cache st) = None ->
  Chat.deepseek_call getenv create (provider_calls st) (strip t) = Raise e ->
  humanize_via (Chat.deepseek_call getenv create) (Return (PyDict d)) st
  = (mkResponse (Failure (reraised encode_error e)) 500,
     mkState (response_cache st) (S (provider_calls st))).
Proof.
  intros Hd Hne Hlen Hk Hmiss He.
  rewrite (humanize_dict _ _ _ _ _ _ Hd). unfold handle.
  now rewrite (path_miss_raise unicode_alnum md5_hexdigest encode_error
                               (Chat.deepseek_call getenv create)
                               st Hne Hlen Hk Hmiss He).
Qed.

(** X21. Without an API key in the environment (unset or empty), a valid
    request that misses the cache is answered with status 500 and the error
    "DEEPSEEK_API_KEY not set", whatever the remote service would answer;
    nothing is stored. *)
Theorem missing_api_key_is_a_server_error d t cache_key st :
  getenv (str "DEEPSEEK_API_KEY") = None
  \/ getenv (str "DEEPSEEK_API_KEY") = Some [] ->
  dict_get (str "text") d = Some (PyStr t) ->
  strip t <> [] -> len (strip t) <= 10000 ->
  fingerprint md5_hexdigest encode_error (strip t) = Return cache_key ->
  dict_get cache_key (response_cache st) = None ->
  humanize_via (Chat.deepseek_call getenv create) (Return (PyDict d)) st
  = (mkResponse (Failure (str "DEEPSEEK_API_KEY not set")) 500,
     mkState (response_cache st) (S (provider_calls st))).
Proof.
  intros Hkey Hd Hne Hlen Hk Hmiss.
  rewrite (@miss_with_failing_call
             d t cache_key (str "DEEPSEEK_API_KEY not set") st
             Hd Hne Hlen Hk Hmiss); [reflexivity|].
  unfold Chat.deepseek_call, Chat.get_deepseek_client.
  destruct Hkey as [-> | ->]; reflexivity.
Qed.

(** X22. With an API key, a completion without choices is answered with
    status 500 and "list index out of range", and a completion whose first
    message has a null content with status 500 and "'NoneType' object has no
    attribute 'strip'"; nothing is stored. *)
Theorem unusable_completion_is_a_server_error
        d t cache_key c choices msg st :
  Chat.get_deepseek_client getenv = Return c ->
  create (provider_calls st) c (Chat.completion_request_of (strip t))
  = Return choices ->
  (choices = [] /\ msg = str "list index out of range")
  \/ (exists rest, choices = None :: rest
                   /\ msg = str "'NoneType' object has no attribute 'strip'") ->
  dict_get (str "text") d = Some (PyStr t) ->
  strip t <> [] -> len (strip t) <= 10000 ->
  fingerprint md5_hexdigest encode_error (strip t) = Return cache_key ->
  dict_get cache_key (response_cache st) = None ->
  humanize_via (Chat.deepseek_call getenv create) (Return (PyDict d)) st
  = (mkResponse (Failure msg) 500,
     mkState (response_cache st) (S (provider_calls st))).
Proof.
  intros Hc Hcreate Hchoices Hd Hne Hlen Hk Hmiss.
  assert (Hcall : Chat.deepseek_call getenv create (provider_calls st)
                                     (strip t) = Raise msg).
  { unfold Chat.deepseek_call. rewrite Hc, Hcreate.
    destruct Hchoices as [[-> ->] | (rest & -> & ->)]; reflexivity. }
  rewrite (@miss_with_failing_call d t cache_key msg st
             Hd Hne Hlen Hk Hmiss Hcall).
  destruct Hchoices as [[_ ->] | (rest & _ & ->)]; reflexivity.
Qed.

(** X23. With an API key, the answer to a valid request that misses the
    cache is made from the content of the first choice of the completion
    alone: that content stripped and post-processed is returned with status
    200 and stored under the fingerprint of the request. *)
Theorem first_choice_is_stripped_and_postprocessed
        d t cache_key c content rest st :
  Chat.get_deepseek_client getenv = Return c ->
  create (provider_calls st) c (Chat.completion_request_of (strip t))
  = Return (Some content :: rest) ->
  dict_get (str "text") d = Some (PyStr t) ->
  strip t <> [] -> len (strip t) <= 10000 ->
  fingerprint md5_hexdigest encode_error (strip t) = Return cache_key ->
  dict_get cache_key (response_cache st) = None ->
  let h := postprocess unicode_alnum (strip content) in
  humanize_via (Chat.deepseek_call getenv create) (Return (PyDict d)) st
  = (mkResponse (Success h (len (strip t)) (len h) true) 200,
     mkState (cache_after_store cache_key h (response_cache st))
             (S (provider_calls st))).
Proof.
  intros Hc Hcreate Hd Hne Hlen Hk Hmiss h.
  rewrite (humanize_dict _ _ _ _ _ _ Hd). unfold handle.
  assert (Hcall : Chat.deepseek_call getenv create (provider_calls st)
                                     (strip t) = Return content)
    by (unfold Chat.deepseek_call; now rewrite Hc, Hcreate).
  now rewrite (path_miss_ok unicode_alnum md5_hexdigest encode_error
                            (Chat.deepseek_call getenv create)
                            st Hne Hlen Hk Hmiss Hcall).
Qed.

End WithClient.

(* ================================================================== *)
(** * The handler behind [request.get_json()] *)
(* ================================================================== *)

Section WithFlask.

Variable unicode_alnum : Z -> bool.
Variable md5_hexdigest : list Z -> text.
Variable encode_error : text -> exn.
Variable deepseek_chat : nat -> text -> outcome text.
Variable http_error : http_body -> exn.

Local Notation "'humanize_body' b" :=
  (humanize unicode_alnum md5_hexdigest encode_error deepseek_chat
            (get_json http_error b))
  (at level 10, b at level 9).

(** C6 (what the code does). A request with no JSON body, or with a body
    that is not JSON, never reaches the test of line 183: [get_json()]
    raises inside the [try], and the [except] clause of line 236 answers
    with status 500 and the message of that exception, where the claim has
    status 400 and "No JSON data provided". The state is left as it was.
    That answer of lines 184-187 is given to parsed documents only, the
    falsy ones. *)
Theorem body_that_is_not_json_gets_500 (st : state) :
  humanize_body NoJson st
  = (mkResponse (Failure (http_error NoJson)) 500, st)
  /\ humanize_body BadJson st
     = (mkResponse (Failure (http_error BadJson)) 500, st)
  /\ forall b,
      fst (humanize_body b st)
      = mkResponse (Failure (str "No JSON data provided")) 400 ->
      exists data, b = Json data /\ truthy data = false.
Proof.
  split; [reflexivity|]. split; [reflexivity|].
  intros [| |data] H; [discriminate H | discriminate H |].
  exists data. split; [reflexivity|].
  destruct (truthy data) eqn:Ht; [exfalso | reflexivity].
  cbn [get_json] in H.
  pose proof (humanize_served unicode_alnum md5_hexdigest encode_error
                              deepseek_chat (Return data) st) as V.
  destruct (humanize unicode_alnum md5_hexdigest encode_error deepseek_chat
                     (Return data) st) as [r st'].
  simpl in H. subst r.
  inversion V; subst; try discriminate;
    match goal with
    | E : Return _ = Return _ |- _ => injection E as <-; congruence
    end.
Qed.

End WithFlask.

(** X24. The completion request determines the text it was built from: two
    texts give the same request only if they are equal, the text standing
    verbatim between two fixed parts of the user message. *)
Theorem completion_request_determines_text (t1 t2 : text) :
  Chat.completion_request_of t1 = Chat.completion_request_of t2 <-> t1 = t2.
Proof.
  split; [|now intros ->].
  unfold Chat.completion_request_of, Chat.user_content. intros H.
  injection H as H. now apply app_inv_tail in H.
Qed.

(* ================================================================== *)
(** * The further properties at work *)
(* ================================================================== *)

Lemma postprocess_leaves_clean_text_witness :
  postprocess Stub.ascii_only (str "A plain sentence.")
  = str "A plain sentence.".
Proof.
  apply (@postprocess_leaves_clean_text
           Stub.ascii_only Stub.digest Stub.encode_error
           (str "A plain sentence."));
    try reflexivity;
    intros H; simpl in H;
    repeat (destruct H as [H|H]; [discriminate H|]); exact H.
Defined.

Lemma store_appends_and_evicts_oldest_witness :
  let st := mkState (tl Stub.items101) 7 in
  (length (response_cache st) <= 100)%nat
  /\ cache_store [0] (str "new") st
     = (Return tt,
        mkState ((if (length (response_cache st) <? 100)%nat
                  then response_cache st else tl (response_cache st))
                 ++ [([0], str "new")])
                (provider_calls st)).
Proof.
  intros st.
  assert (Hlen : (length (response_cache st) <= 100)%nat)
    by (apply Nat.leb_le; vm_compute; reflexivity).
  split; [exact Hlen|].
  apply (@store_appends_and_evicts_oldest
           Stub.digest Stub.encode_error [0] (str "new") st);
    [| vm_compute; reflexivity | exact Hlen].
  assert (E : nodup (list_eq_dec Z.eq_dec) (keys (response_cache st))
              = keys (response_cache st)) by (vm_compute; reflexivity).
  rewrite <- E. apply NoDup_nodup.
Defined.

Lemma served_text_is_always_postprocessed_witness :
  enforced Stub.ascii_only (str "At the same time").
Proof.
  apply (@served_text_is_always_postprocessed
           Stub.ascii_only Stub.digest Stub.encode_error Stub.echo
           [Stub.post (str "Meanwhile")] (Stub.post (str " Meanwhile "))
           (str "At the same time") 9 16 true 200
           (mkState [(str "Meanwhile", str "At the same time")] 1)).
  vm_compute. reflexivity.
Defined.

Lemma cached_text_is_never_overwritten_witness :
  let st := mkState [(str "a", str "1")] 1 in
  let cache' :=
    response_cache (snd (humanize_with Stub.echo (Stub.post (str "b")) st)) in
  dict_get (str "a") cache' = Some (str "1")
  \/ (dict_get (str "a") cache' = None
      /\ hd_error (keys (response_cache st)) = Some (str "a")).
Proof.
  intros st.
  apply (@cached_text_is_never_overwritten
           Stub.ascii_only Stub.digest Stub.encode_error Stub.echo
           (Stub.post (str "b")) st (str "a") (str "1")).
  reflexivity.
Defined.

Lemma success_payload_is_consistent_witness :
  200 = 200 /\ 5 = len (str "hello") /\ 1 <= 5 <= 10000
  /\ exists ai_text cache_key,
      carries (Stub.post (str "hello")) ai_text /\ 5 = len ai_text
      /\ fingerprint Stub.digest Stub.encode_error ai_text = Return cache_key
      /\ dict_get cache_key [(str "hello", str "hello")] = Some (str "hello").
Proof.
  apply (@success_payload_is_consistent
           Stub.ascii_only Stub.digest Stub.encode_error Stub.echo
           (Stub.post (str "hello")) initial_state
           (str "hello") 5 5 true 200
           (mkState [(str "hello", str "hello")] 1)).
  vm_compute. reflexivity.
Defined.

Lemma body_without_get_is_a_server_error_witness :
  humanize_with Stub.echo (Return (PyList [PyInt 1])) initial_state
  = (mkResponse (Failure (str "'list' object has no attribute 'get'")) 500,
     initial_state).
Proof.
  apply (@body_without_get_is_a_server_error
           Stub.ascii_only Stub.digest Stub.encode_error Stub.echo
           (PyList [PyInt 1]) initial_state);
    [reflexivity | discriminate].
Defined.

Lemma text_without_strip_is_a_server_error_witness :
  humanize_with Stub.echo (Return (PyDict [(str "text", PyNone)]))
                initial_state
  = (mkResponse
       (Failure (str "'NoneType' object has no attribute 'strip'")) 500,
     initial_state).
Proof.
  apply (@text_without_strip_is_a_server_error
           Stub.ascii_only Stub.digest Stub.encode_error Stub.echo
           [(str "text", PyNone)] PyNone initial_state);
    [reflexivity | discriminate].
Defined.

Lemma missing_text_key_is_no_text_witness :
  humanize_with Stub.echo (Return (PyDict [(str "body", PyStr (str "hi"))]))
                initial_state
  = (mkResponse (Failure (str "No text provided")) 400, initial_state).
Proof.
  apply (@missing_text_key_is_no_text
           Stub.ascii_only Stub.digest Stub.encode_error Stub.echo
           [(str "body", PyStr (str "hi"))] initial_state);
    [discriminate | reflexivity].
Defined.

Lemma scalar_text_has_a_fingerprint_witness :
  exists bytes,
    utf8_encode [104; 233; 8212; 128512] = Some bytes
    /\ fingerprint Stub.digest Stub.encode_error [104; 233; 8212; 128512]
       = Return (Stub.digest bytes)
    /\ Forall (fun b => 0 <= b < 256) bytes
    /\ len [104; 233; 8212; 128512] <= len bytes
       <= 4 * len [104; 233; 8212; 128512].
Proof.
  apply (@scalar_text_has_a_fingerprint
           Stub.ascii_only Stub.digest Stub.encode_error
           [104; 233; 8212; 128512]).
  repeat (apply Forall_cons; [reflexivity|]). apply Forall_nil.
Defined.

Lemma surrogate_text_is_a_server_error_witness :
  humanize_with Stub.echo (Stub.post [104; 55296; 32]) initial_state
  = (mkResponse (Failure (Stub.encode_error (strip [104; 55296; 32]))) 500,
     initial_state).
Proof.
  apply (@surrogate_text_is_a_server_error
           Stub.ascii_only Stub.digest Stub.encode_error Stub.echo
           [(str "text", PyStr [104; 55296; 32])] [104; 55296; 32] 55296
           initial_state).
  - reflexivity.
  - right. left. reflexivity.
  - reflexivity.
  - vm_compute. discriminate.
Defined.

Lemma failure_is_not_cached_witness :
  let req := Stub.post (str "hello") in
  let st1 := snd (humanize_with Chat.fails_once req initial_state) in
  let h := postprocess Stub.ascii_only (strip (str "hello")) in
  humanize_with Chat.fails_once req st1
  = (mkResponse (Success h (len (strip (str "hello"))) (len h) true) 200,
     mkState (cache_after_store (str "hello") h
                                (response_cache initial_state))
             (S (S (provider_calls initial_state)))).
Proof.
  apply (@failure_is_not_cached
           Stub.ascii_only Stub.digest Stub.encode_error Chat.fails_once
           [(str "text", PyStr (str "hello"))] (str "hello") (str "hello")
           (str "Connection error.") (str "hello") initial_state).
  - reflexivity.
  - vm_compute. discriminate.
  - vm_compute. discriminate.
  - reflexivity.
  - reflexivity.
  - reflexivity.
  - reflexivity.
Defined.

Lemma hit_does_not_depend_on_provider_witness :
  let st := mkState [(str "hello", str "hi there")] 3 in
  humanize_with Stub.echo (Stub.post (str "hello")) st
  = humanize_with (Stub.failing (str "down")) (Stub.post (str "hello")) st.
Proof.
  intros st.
  apply (@hit_does_not_depend_on_provider
           Stub.ascii_only Stub.digest Stub.encode_error
           Stub.echo (Stub.failing (str "down"))
           [(str "text", PyStr (str "hello"))] (str "hello") (str "hello")
           st).
  - reflexivity.
  - vm_compute. discriminate.
  - vm_compute. discriminate.
  - reflexivity.
  - reflexivity.
Defined.

Lemma missing_api_key_is_a_server_error_witness :
  humanize_with (Chat.deepseek_call Chat.no_key
                                    (Chat.answers [Some (str "fine")]))
                (Stub.post (str "hello")) initial_state
  = (mkResponse (Failure (str "DEEPSEEK_API_KEY not set")) 500,
     mkState [] 1).
Proof.
  apply (@missing_api_key_is_a_server_error
           Stub.ascii_only Stub.digest Stub.encode_error
           Chat.no_key (Chat.answers [Some (str "fine")])
           [(str "text", PyStr (str "hello"))] (str "hello") (str "hello")
           initial_state).
  - left. reflexivity.
  - reflexivity.
  - vm_compute. discriminate.
  - vm_compute. discriminate.
  - reflexivity.
  - reflexivity.
Defined.

Lemma unusable_completion_is_a_server_error_witness :
  humanize_with (Chat.deepseek_call Chat.test_key (Chat.answers []))
                (Stub.post (str "hello")) initial_state
  = (mkResponse (Failure (str "list index out of range")) 500,
     mkState [] 1).
Proof.
  apply (@unusable_completion_is_a_server_error
           Stub.ascii_only Stub.digest Stub.encode_error
           Chat.test_key (Chat.answers [])
           [(str "text", PyStr (str "hello"))] (str "hello") (str "hello")
           (Chat.mkClient (str "sk-test") (str "https://api.deepseek.com/v1"))
           [] (str "list index out of range") initial_state).
  - reflexivity.
  - reflexivity.
  - left. split; reflexivity.
  - reflexivity.
  - vm_compute. discriminate.
  - vm_compute. discriminate.
  - reflexivity.
  - reflexivity.
Defined.

Lemma first_choice_is_stripped_and_postprocessed_witness :
  let h := postprocess Stub.ascii_only (strip (str " Meanwhile, fine. ")) in
  humanize_with (Chat.deepseek_call
                   Chat.test_key
                   (Chat.answers [Some (str " Meanwhile, fine. ");
                                  Some (str "second choice")]))
                (Stub.post (str "hello")) initial_state
  = (mkResponse (Success h (len (strip (str "hello"))) (len h) true) 200,
     mkState (cache_after_store (str "hello") h
                                (response_cache initial_state))
             (S (provider_calls initial_state))).
Proof.
  apply (@first_choice_is_stripped_and_postprocessed
           Stub.ascii_only Stub.digest Stub.encode_error
           Chat.test_key
           (Chat.answers [Some (str " Meanwhile, fine. ");
                          Some (str "second choice")])
           [(str "text", PyStr (str "hello"))] (str "hello") (str "hello")
           (Chat.mkClient (str "sk-test") (str "https://api.deepseek.com/v1"))
           (str " Meanwhile, fine. ") [Some (str "second choice")]
           initial_state).
  - reflexivity.
  - reflexivity.
  - reflexivity.
  - vm_compute. discriminate.
  - vm_compute. discriminate.
  - reflexivity.
  - reflexivity.
Defined.

Lemma hit_does_not_protect_the_oldest_witness :
  let st := mkState (tl Stub.items101) 100 in
  let st1 := snd (humanize_with Stub.echo (Stub.post [1]) st) in
  let st2 := snd (humanize_with Stub.echo (Stub.post [0]) st1) in
  success (fst (humanize_with Stub.echo (Stub.post [1]) st)) = true
  /\ response_cache st2
     = tl (response_cache st)
          ++ [([0], postprocess Stub.ascii_only (strip [0]))]
  /\ dict_contains [1] (response_cache st2) = false.
Proof.
  intros st.
  apply (@hit_does_not_protect_the_oldest
           Stub.ascii_only Stub.digest Stub.encode_error Stub.echo
           [(str "text", PyStr [1])] [1] [1]
           [(str "text", PyStr [0])] [0] [0] [0] st);
    try reflexivity; try (vm_compute; discriminate).
  assert (E : nodup (list_eq_dec Z.eq_dec) (keys (response_cache st))
              = keys (response_cache st)) by (vm_compute; reflexivity).
  rewrite <- E. apply NoDup_nodup.
Defined.
